(** * cbv.views: entity resolution and sitemap of the class-based-view browser

    A shallow embedding of [src/cbv/views.py].  Every view method becomes a
    computation in a small state-and-exception monad whose state holds the
    database, the attributes of the view instance ([self]) and the trace of
    the queries issued so far.

    Conventions of the embedding:
    - a query set is the list of the rows it selects, and [QuerySet.get] has
      the three outcomes of Django: [DoesNotExist] on no row, the row on
      one, [MultipleObjectsReturned] on several;
    - [__iexact] compares up to the case of the ASCII letters;
    - [order_by] compares text bytewise and keeps the table order of rows
      that tie;
    - a query set placed in a context is the list a template would iterate;
    - [reverse] is kept symbolic: a URL is the route name with its keyword
      arguments;
    - cbv/models.py is not among the sources: its records are given by the
      fields the views read, and its manager methods and [get_absolute_url]
      are modelled from the specification, in [Managers].

    [RedirectToLatestVersionView] calls [reverse] with a route name it was
    given and then the [get_redirect_url] of Django's [RedirectView]; both
    can fail, and both are arguments of the embedded method. *)

From Stdlib Require Import List String Ascii Bool ZArith QArith Lia.
From Stdlib Require Import Sorting.Sorted Sorting.Permutation.
From Stdlib Require Import Structures.OrdersEx.
Import ListNotations.

Local Open Scope string_scope.
Local Open Scope Z_scope.

(** ** Text lookups

    [name=...] is equality of strings, [name__iexact=...] is equality up to
    the case of the ASCII letters. *)

Definition lower (c : ascii) : ascii :=
  let n := nat_of_ascii c in
  if (Nat.leb 65 n && Nat.leb n 90)%bool then ascii_of_nat (n + 32) else c.

Fixpoint casefold (s : string) : string :=
  match s with
  | EmptyString => EmptyString
  | String c r => String (lower c) (casefold r)
  end.

Definition exact (stored given : string) : bool := String.eqb stored given.

Definition iexact (stored given : string) : bool :=
  String.eqb (casefold stored) (casefold given).

(** ** Records of cbv.models, as the views read them

    The models live outside [src/]; the views only follow foreign keys
    upwards ([klass.module.project_version.project.name]), so every record
    carries its parent, as a row fetched with [select_related] does.
    Instances compare by primary key, as Django's [Model.__eq__] does. *)

Module Project.
Record t : Type := Build { pk : Z; name : string }.
End Project.

Module ProjectVersion.
Record t : Type := Build {
  pk : Z;
  project : Project.t;
  version_number : string;
  sortable_version_number : Z
}.
Definition eqb (a b : t) : bool := Z.eqb (pk a) (pk b).
End ProjectVersion.

Module Module_.
Record t : Type := Build {
  pk : Z;
  project_version : ProjectVersion.t;
  name : string
}.
Definition eqb (a b : t) : bool := Z.eqb (pk a) (pk b).
End Module_.

Module Klass.
Record t : Type := Build {
  pk : Z;
  module : Module_.t;
  name : string
}.
End Klass.

Record Store : Type := {
  project_versions : list ProjectVersion.t;
  modules : list Module_.t;
  klasses : list Klass.t
}.

(** ** URLs

    [reverse(name, kwargs)] belongs to the URL configuration; it is kept as
    the pair of its arguments. *)

Record Url : Type := { url_name : string; url_kwargs : list (string * string) }.

Definition reverse (name : string) (kwargs : list (string * string)) : Url :=
  {| url_name := name; url_kwargs := kwargs |}.

(** The keyword arguments a route hands to its view. *)
Record Kwargs : Type := {
  package : string;
  version : string;
  module : string;
  klass : string
}.

(** ** Exceptions and queries *)

Inductive Model : Type := ProjectVersionModel | ModuleModel | KlassModel.

Inductive Exc : Type :=
| DoesNotExist (m : Model)
| MultipleObjectsReturned (m : Model)
| AttributeError
| Http404
| NoReverseMatch
| ValueError
| KeyError
| TypeError.

Inductive Result (A : Type) : Type :=
| Ok (a : A)
| Raise (e : Exc).
Arguments Ok {A} a.
Arguments Raise {A} e.

Inductive Lookup : Type := Exact | IExact.

(** One entry per round trip to the database; [QRelated m] is the load of
    a parent of a row of [m] that was fetched without [select_related]. *)
Inductive Query : Type :=
| QGet (m : Model) (l : Lookup)
| QFilter (m : Model)
| QOrderBy (m : Model)
| QLatest
| QLatestForName
| QRelated (m : Model).

Definition Model_eqb (a b : Model) : bool :=
  match a, b with
  | ProjectVersionModel, ProjectVersionModel => true
  | ModuleModel, ModuleModel => true
  | KlassModel, KlassModel => true
  | _, _ => false
  end.

(** [QuerySet.get()] on the rows a filter selected. *)
Definition get_row {A : Type} (m : Model) (rows : list A) : Result A :=
  match rows with
  | [] => Raise (DoesNotExist m)
  | [x] => Ok x
  | _ :: _ :: _ => Raise (MultipleObjectsReturned m)
  end.

(** ** The monad of a request

    [V] is the type of the view's instance attributes. *)

Section Request.
Context {V : Type}.

Record World : Type := { db : Store; self : V; queries : list Query }.

Definition M (A : Type) : Type := World -> Result A * World.

Definition ret {A} (a : A) : M A := fun w => (Ok a, w).

Definition bind {A B} (c : M A) (k : A -> M B) : M B :=
  fun w =>
    match c w with
    | (Ok a, w') => k a w'
    | (Raise e, w') => (Raise e, w')
    end.

Definition raise {A} (e : Exc) : M A := fun w => (Raise e, w).

(** [try: c except m.DoesNotExist: h] *)
Definition try_except {A} (c : M A) (m : Model) (h : M A) : M A :=
  fun w =>
    match c w with
    | (Raise (DoesNotExist m'), w') =>
        if Model_eqb m m' then h w' else (Raise (DoesNotExist m'), w')
    | r => r
    end.

Definition read_self : M V := fun w => (Ok (self w), w).

Definition write_self (f : V -> V) : M unit :=
  fun w => (Ok tt, {| db := db w; self := f (self w); queries := queries w |}).

Definition issue (q : Query) : M unit :=
  fun w => (Ok tt, {| db := db w; self := self w; queries := queries w ++ [q] |}).

Definition read_db : M Store := fun w => (Ok (db w), w).

Definition lift {A} (r : Result A) : M A := fun w => (r, w).
End Request.

Arguments World V : clear implicits.
Arguments M V A : clear implicits.

Declare Scope request_scope.
Delimit Scope request_scope with request.
Notation "x <- c ;; k" := (bind c (fun x => k))
  (at level 61, c at next level, right associativity) : request_scope.
Notation "c ;; k" := (bind c (fun _ => k))
  (at level 61, right associativity) : request_scope.
Local Open Scope request_scope.

(** [Model.objects.filter(...).get()] *)
Definition objects_get {V A} (m : Model) (l : Lookup) (table : Store -> list A)
    (p : A -> bool) : M V A :=
  issue (QGet m l) ;;
  s <- read_db ;;
  lift (get_row m (filter p (table s))).

(** [Model.objects.filter(...)], evaluated. *)
Definition objects_filter {V A} (m : Model) (table : Store -> list A)
    (p : A -> bool) : M V (list A) :=
  issue (QFilter m) ;;
  s <- read_db ;;
  ret (filter p (table s)).

(** A request starts on a fresh view instance with an empty trace. *)
Definition request {V} (s : Store) (v : V) : World V :=
  {| db := s; self := v; queries := [] |}.

(** ** Ordering

    [order_by] is a stable insertion sort: rows that tie keep the order of
    the table. *)

Fixpoint insert_by {A : Type} (leb : A -> A -> bool) (x : A) (l : list A) : list A :=
  match l with
  | [] => [x]
  | y :: r => if leb x y then x :: l else y :: insert_by leb x r
  end.

Fixpoint order_by {A : Type} (leb : A -> A -> bool) (l : list A) : list A :=
  match l with
  | [] => []
  | x :: r => insert_by leb x (order_by leb r)
  end.

Definition lex (c1 c2 : comparison) : comparison :=
  match c1 with Eq => c2 | _ => c1 end.

Definition not_gt (c : comparison) : bool :=
  match c with Gt => false | _ => true end.

(** [order_by("-sortable_version_number")] *)
Definition newest_first (a b : ProjectVersion.t) : bool :=
  Z.leb (ProjectVersion.sortable_version_number b)
        (ProjectVersion.sortable_version_number a).

(** The four sort keys of the sitemap query, in the order they are given:
    [module__project_version__project__name],
    [-module__project_version__sortable_version_number],
    [module__name], [name].  Text is compared byte by byte. *)
Definition sitemap_compare (a b : Klass.t) : comparison :=
  let ma := Klass.module a in
  let mb := Klass.module b in
  let va := Module_.project_version ma in
  let vb := Module_.project_version mb in
  lex (String_as_OT.compare (Project.name (ProjectVersion.project va))
                            (Project.name (ProjectVersion.project vb)))
 (lex (Z.compare (ProjectVersion.sortable_version_number vb)
                 (ProjectVersion.sortable_version_number va))
 (lex (String_as_OT.compare (Module_.name ma) (Module_.name mb))
      (String_as_OT.compare (Klass.name a) (Klass.name b)))).

Definition sitemap_leb (a b : Klass.t) : bool := not_gt (sitemap_compare a b).

(** ** cbv.models: managers and canonical URLs *)

Module Managers.

(** Modelled from the spec: [ProjectVersion.objects.get_latest] is defined
    in cbv/models.py, which is not among the sources.  It filters the
    versions of the named package by exact name, orders them descending by
    [sortable_version_number] and returns the first; without a candidate
    it fails with the store's not-found signal. *)
Definition get_latest {V} (name : string) : M V ProjectVersion.t :=
  issue QLatest ;;
  s <- read_db ;;
  match order_by newest_first
          (filter (fun v => exact (Project.name (ProjectVersion.project v)) name)
                  (project_versions s)) with
  | [] => raise (DoesNotExist ProjectVersionModel)
  | v :: _ => ret v
  end.

(** The latest version of a package named up to case. *)
Definition latest_iexact (s : Store) (project_name : string)
    : option ProjectVersion.t :=
  hd_error
    (order_by newest_first
       (filter (fun v => iexact (Project.name (ProjectVersion.project v)) project_name)
               (project_versions s))).

(** Modelled from the spec: [Klass.objects.get_latest_for_name] is defined
    in cbv/models.py, which is not among the sources.  It finds the class
    with the given name in the latest version of the named package, both
    names compared without case, as one query; the first row the store
    yields is taken, and without a row it fails with the store's
    not-found signal. *)
Definition get_latest_for_name {V} (klass_name project_name : string)
    : M V Klass.t :=
  issue QLatestForName ;;
  s <- read_db ;;
  match latest_iexact s project_name with
  | None => raise (DoesNotExist KlassModel)
  | Some latest =>
      match filter (fun k =>
                      iexact (Klass.name k) klass_name
                      && ProjectVersion.eqb
                           (Module_.project_version (Klass.module k)) latest)
                   (klasses s) with
      | [] => raise (DoesNotExist KlassModel)
      | k :: _ => ret k
      end
  end.

(** Modelled from the spec: [Klass.get_absolute_url] is defined in
    cbv/models.py, which is not among the sources.  The canonical URL of a
    class is derived from the stored package name, version number, module
    name and class name. *)
Definition klass_get_absolute_url (k : Klass.t) : Url :=
  let m := Klass.module k in
  let v := Module_.project_version m in
  reverse "klass-detail"
    [("package", Project.name (ProjectVersion.project v));
     ("version", ProjectVersion.version_number v);
     ("module", Module_.name m);
     ("klass", Klass.name k)].

(** Modelled from the spec: [Module.get_absolute_url] is defined in
    cbv/models.py, which is not among the sources.  The canonical URL of a
    module is derived from its stored package name, version number and
    module name. *)
Definition module_get_absolute_url (m : Module_.t) : Url :=
  let v := Module_.project_version m in
  reverse "module-detail"
    [("package", Project.name (ProjectVersion.project v));
     ("version", ProjectVersion.version_number v);
     ("module", Module_.name m)].

(** [Module.get_absolute_url] on a row fetched without [select_related]:
    reading the version of the module and the package of that version
    loads each of them with a query of its own. *)
Definition module_get_absolute_url_unloaded {V} (m : Module_.t) : M V Url :=
  issue (QRelated ModuleModel) ;;
  issue (QRelated ProjectVersionModel) ;;
  ret (module_get_absolute_url m).

End Managers.

(** ** class KlassDetailView(DetailView) *)

Module KlassDetailView.

Record View : Type := { push_state_url : option Url }.

(** The class attribute [push_state_url = None]. *)
Definition new : View := {| push_state_url := None |}.

Record Context : Type := {
  context_object : Klass.t;
  context_push_state_url : option Url
}.

Definition precise (kw : Kwargs) (k : Klass.t) : bool :=
  let m := Klass.module k in
  let v := Module_.project_version m in
  exact (Klass.name k) (klass kw)
  && exact (Module_.name m) (module kw)
  && exact (ProjectVersion.version_number v) (version kw)
  && exact (Project.name (ProjectVersion.project v)) (package kw).

Definition fuzzy (kw : Kwargs) (k : Klass.t) : bool :=
  let m := Klass.module k in
  let v := Module_.project_version m in
  iexact (Klass.name k) (klass kw)
  && iexact (Module_.name m) (module kw)
  && iexact (ProjectVersion.version_number v) (version kw)
  && iexact (Project.name (ProjectVersion.project v)) (package kw).

Definition get_precise_object (kw : Kwargs) : M View Klass.t :=
  objects_get KlassModel Exact klasses (precise kw).

Definition get_fuzzy_object (kw : Kwargs) : M View Klass.t :=
  objects_get KlassModel IExact klasses (fuzzy kw).

Definition get_object (kw : Kwargs) : M View Klass.t :=
  try_except (get_precise_object kw) KlassModel
    (obj <- try_except (get_fuzzy_object kw) KlassModel (raise Http404) ;;
     write_self (fun _ =>
       {| push_state_url := Some (Managers.klass_get_absolute_url obj) |}) ;;
     ret obj).

Definition get_context_data (object : Klass.t) : M View Context :=
  v <- read_self ;;
  ret {| context_object := object;
         context_push_state_url := push_state_url v |}.

(** [BaseDetailView.get]: the object, then the context built on it. *)
Definition get (kw : Kwargs) : M View Context :=
  obj <- get_object kw ;;
  get_context_data obj.

End KlassDetailView.

(** ** class LatestKlassDetailView(DetailView) *)

Module LatestKlassDetailView.

Record View : Type := { push_state_url : option Url }.

Definition new : View := {| push_state_url := None |}.

Record Context : Type := {
  context_object : Klass.t;
  context_push_state_url : option Url
}.

Definition get_precise_object (kw : Kwargs) : M View Klass.t :=
  raise (DoesNotExist KlassModel).

Definition get_fuzzy_object (kw : Kwargs) : M View Klass.t :=
  Managers.get_latest_for_name (klass kw) (package kw).

Definition get_object (kw : Kwargs) : M View Klass.t :=
  try_except (get_precise_object kw) KlassModel
    (obj <- try_except (get_fuzzy_object kw) KlassModel (raise Http404) ;;
     write_self (fun _ =>
       {| push_state_url := Some (Managers.klass_get_absolute_url obj) |}) ;;
     ret obj).

Definition get_context_data (object : Klass.t) : M View Context :=
  v <- read_self ;;
  ret {| context_object := object;
         context_push_state_url := push_state_url v |}.

Definition get (kw : Kwargs) : M View Context :=
  obj <- get_object kw ;;
  get_context_data obj.

End LatestKlassDetailView.

(** ** class ModuleDetailView(DetailView) *)

Module ModuleDetailView.

Record View : Type := {
  push_state_url : option Url;
  project_version : option ProjectVersion.t;
  object : option Module_.t
}.

Definition new : View :=
  {| push_state_url := None; project_version := None; object := None |}.

Record Context : Type := {
  context_object : Module_.t;
  context_project_version : ProjectVersion.t;
  context_klass_list : list Klass.t;
  context_push_state_url : option Url
}.

(** [self.x], an [AttributeError] while the attribute is unset. *)
Definition attribute {A} (field : View -> option A) : M View A :=
  v <- read_self ;;
  match field v with
  | Some a => ret a
  | None => raise AttributeError
  end.

Definition version_fuzzy (kw : Kwargs) (v : ProjectVersion.t) : bool :=
  iexact (ProjectVersion.version_number v) (version kw)
  && iexact (Project.name (ProjectVersion.project v)) (package kw).

Definition precise (kw : Kwargs) (pv : ProjectVersion.t) (m : Module_.t) : bool :=
  exact (Module_.name m) (module kw)
  && ProjectVersion.eqb (Module_.project_version m) pv.

Definition fuzzy (kw : Kwargs) (m : Module_.t) : bool :=
  let v := Module_.project_version m in
  iexact (Module_.name m) (module kw)
  && iexact (ProjectVersion.version_number v) (version kw)
  && iexact (Project.name (ProjectVersion.project v)) (package kw).

Definition get_precise_object (kw : Kwargs) : M View Module_.t :=
  pv <- attribute project_version ;;
  objects_get ModuleModel Exact modules (precise kw pv).

Definition get_fuzzy_object (kw : Kwargs) : M View Module_.t :=
  objects_get ModuleModel IExact modules (fuzzy kw).

Definition get_object (kw : Kwargs) : M View Module_.t :=
  try_except (get_precise_object kw) ModuleModel
    (obj <- try_except (get_fuzzy_object kw) ModuleModel (raise Http404) ;;
     url <- Managers.module_get_absolute_url_unloaded obj ;;
     write_self (fun v =>
       {| push_state_url := Some url;
          project_version := project_version v;
          object := object v |}) ;;
     ret obj).

Definition get_context_data (kw : Kwargs) : M View Context :=
  pv <- attribute project_version ;;
  obj <- attribute object ;;
  klass_list <- objects_filter KlassModel klasses
                  (fun k => Module_.eqb (Klass.module k) obj) ;;
  v <- read_self ;;
  ret {| context_object := obj;
         context_project_version := pv;
         context_klass_list := klass_list;
         context_push_state_url := push_state_url v |}.

(** [BaseDetailView.get], reached through [super().get]. *)
Definition super_get (kw : Kwargs) : M View Context :=
  obj <- get_object kw ;;
  write_self (fun v =>
    {| push_state_url := push_state_url v;
       project_version := project_version v;
       object := Some obj |}) ;;
  get_context_data kw.

Definition get (kw : Kwargs) : M View Context :=
  pv <- try_except
          (objects_get ProjectVersionModel IExact project_versions (version_fuzzy kw))
          ProjectVersionModel (raise Http404) ;;
  write_self (fun v =>
    {| push_state_url := push_state_url v;
       project_version := Some pv;
       object := object v |}) ;;
  super_get kw.

End ModuleDetailView.

(** ** class VersionDetailView(TemplateView) and class HomeView(VersionDetailView) *)

Module VersionDetailView.

Record View : Type := { project_version : option ProjectVersion.t }.

Definition new : View := {| project_version := None |}.

Record Context : Type := {
  context_object_list : list Klass.t;
  context_projectversion : ProjectVersion.t
}.

Definition version_fuzzy (kw : Kwargs) (v : ProjectVersion.t) : bool :=
  iexact (ProjectVersion.version_number v) (version kw)
  && iexact (Project.name (ProjectVersion.project v)) (package kw).

Definition get_project_version (kw : Kwargs) : M View ProjectVersion.t :=
  objects_get ProjectVersionModel IExact project_versions (version_fuzzy kw).

Definition get_context_data (kw : Kwargs) : M View Context :=
  v <- read_self ;;
  match project_version v with
  | None => raise AttributeError
  | Some pv =>
      object_list <- objects_filter KlassModel klasses
        (fun k => ProjectVersion.eqb (Module_.project_version (Klass.module k)) pv) ;;
      ret {| context_object_list := object_list;
             context_projectversion := pv |}
  end.

(** [get] calls [self.get_project_version], which a subclass overrides:
    the method is an argument. *)
Definition get_with (get_project_version : Kwargs -> M View ProjectVersion.t)
    (kw : Kwargs) : M View Context :=
  pv <- try_except (get_project_version kw) ProjectVersionModel (raise Http404) ;;
  write_self (fun _ => {| project_version := Some pv |}) ;;
  get_context_data kw.

Definition get : Kwargs -> M View Context := get_with get_project_version.

End VersionDetailView.

Module HomeView.

Definition get_project_version (kw : Kwargs)
    : M VersionDetailView.View ProjectVersion.t :=
  Managers.get_latest "Django".

Definition get : Kwargs -> M VersionDetailView.View VersionDetailView.Context :=
  VersionDetailView.get_with get_project_version.

End HomeView.

(** ** class Sitemap(TemplateView) *)

Module Sitemap.

(** The priorities are the literals [1.0], [0.9] and [0.5]. *)
Record Entry : Type := { location : Url; priority : Q }.

Record Context : Type := { urlset : list Entry }.

Definition klass_priority (latest_version : ProjectVersion.t) (k : Klass.t) : Q :=
  if ProjectVersion.eqb (Module_.project_version (Klass.module k)) latest_version
  then (9 # 10)%Q else (1 # 2)%Q.

Definition klass_entry (latest_version : ProjectVersion.t) (k : Klass.t) : Entry :=
  {| location := Managers.klass_get_absolute_url k;
     priority := klass_priority latest_version k |}.

Definition home_entry : Entry :=
  {| location := reverse "home" []; priority := 1%Q |}.

(** [Klass.objects.select_related(...).order_by(...)], evaluated by the loop. *)
Definition ordered_klasses : M unit (list Klass.t) :=
  issue (QOrderBy KlassModel) ;;
  s <- read_db ;;
  ret (order_by sitemap_leb (klasses s)).

Definition get_context_data : M unit Context :=
  latest_version <- Managers.get_latest "Django" ;;
  klasses <- ordered_klasses ;;
  let urls := [home_entry] in
  let urls := fold_left (fun urls k => (urls ++ [klass_entry latest_version k])%list)
                        klasses urls in
  ret {| urlset := urls |}.

End Sitemap.

(** ** Fixtures *)

Module Fixtures.

Definition kwargs (p v m k : string) : Kwargs :=
  {| package := p; version := v; module := m; klass := k |}.

Definition django : Project.t := Project.Build 1 "Django".

(** Two versions, one module and one class each. *)
Definition v1_0 : ProjectVersion.t := ProjectVersion.Build 1 django "1.0" 100.
Definition v2_0 : ProjectVersion.t := ProjectVersion.Build 2 django "2.0" 200.
Definition m1_0 : Module_.t := Module_.Build 1 v1_0 "m".
Definition m2_0 : Module_.t := Module_.Build 2 v2_0 "m".
Definition c1_0 : Klass.t := Klass.Build 1 m1_0 "C".
Definition c2_0 : Klass.t := Klass.Build 2 m2_0 "C".

Definition two_versions : Store :=
  {| project_versions := [v1_0; v2_0];
     modules := [m1_0; m2_0];
     klasses := [c1_0; c2_0] |}.

(** Versions whose numbers do not sort as strings. *)
Definition v1_9 : ProjectVersion.t := ProjectVersion.Build 11 django "1.9" 109.
Definition v1_10 : ProjectVersion.t := ProjectVersion.Build 12 django "1.10" 110.
Definition v2_0' : ProjectVersion.t := ProjectVersion.Build 13 django "2.0" 200.

Definition three_versions : Store :=
  {| project_versions := [v1_9; v1_10; v2_0'];
     modules := [];
     klasses := [] |}.

(** Two classes of one module whose names differ in case only. *)
Definition c_view : Klass.t := Klass.Build 21 m2_0 "view".
Definition c_View : Klass.t := Klass.Build 22 m2_0 "View".

Definition case_twins : Store :=
  {| project_versions := [v2_0];
     modules := [m2_0];
     klasses := [c_view; c_View] |}.

End Fixtures.

(** ** Outcomes and orders named in the statements *)

(** A comparison of rows by a key: antisymmetric, transitive on [Lt], and
    [Eq] rows compare alike with every third row. *)
Record KeyOrder {T : Type} (cmp : T -> T -> comparison) : Prop := {
  cmp_antisym : forall a b, cmp b a = CompOpp (cmp a b);
  cmp_lt_trans : forall a b c, cmp a b = Lt -> cmp b c = Lt -> cmp a c = Lt;
  cmp_eq_left : forall a b x, cmp a b = Eq -> cmp a x = cmp b x
}.

(** The order of the sitemap query in words: package name ascending, then
    sortable version number descending, then module name ascending, then
    class name ascending. *)
Definition SitemapOrder (a b : Klass.t) : Prop :=
  let ma := Klass.module a in
  let mb := Klass.module b in
  let va := Module_.project_version ma in
  let vb := Module_.project_version mb in
  let pa := Project.name (ProjectVersion.project va) in
  let pb := Project.name (ProjectVersion.project vb) in
  let na := ProjectVersion.sortable_version_number va in
  let nb := ProjectVersion.sortable_version_number vb in
  String_as_OT.lt pa pb \/
  (pa = pb /\
   (nb < na \/
    (na = nb /\
     (String_as_OT.lt (Module_.name ma) (Module_.name mb) \/
      (Module_.name ma = Module_.name mb /\
       (String_as_OT.lt (Klass.name a) (Klass.name b) \/
        Klass.name a = Klass.name b)))))).

(** The world after the queries [qs] were issued. *)
Definition traced {V} (w : World V) (qs : list Query) : World V :=
  {| db := db w; self := self w; queries := (queries w ++ qs)%list |}.

(** The world with the view attributes replaced by [v]. *)
Definition with_self {V} (w : World V) (v : V) : World V :=
  {| db := db w; self := v; queries := queries w |}.

(** A Class view after [self.push_state_url = obj.get_absolute_url()]. *)
Definition klass_hint (k : Klass.t) : KlassDetailView.View :=
  {| KlassDetailView.push_state_url := Some (Managers.klass_get_absolute_url k) |}.

(** The context of the Module page for the module [m] of version [pv]. *)
Definition module_context (s : Store) (pv : ProjectVersion.t) (m : Module_.t)
    (hint : option Url) : ModuleDetailView.Context :=
  {| ModuleDetailView.context_object := m;
     ModuleDetailView.context_project_version := pv;
     ModuleDetailView.context_klass_list :=
       filter (fun k => Module_.eqb (Klass.module k) m) (klasses s);
     ModuleDetailView.context_push_state_url := hint |}.

(** The attributes of a Module view. *)
Definition module_view (hint : option Url) (pv : option ProjectVersion.t)
    (m : option Module_.t) : ModuleDetailView.View :=
  {| ModuleDetailView.push_state_url := hint;
     ModuleDetailView.project_version := pv;
     ModuleDetailView.object := m |}.

(** The versions whose package carries exactly the given name. *)
Definition versions_of (s : Store) (name : string) : list ProjectVersion.t :=
  filter (fun v => exact (Project.name (ProjectVersion.project v)) name)
         (project_versions s).

(** The versions of a package, newest first by the text of the version
    number: the comparison [get_latest] does not use. *)
Definition newest_first_by_text (a b : ProjectVersion.t) : bool :=
  not_gt (String_as_OT.compare (ProjectVersion.version_number b)
                               (ProjectVersion.version_number a)).

(** The rows [get_latest_for_name] chooses from. *)
Definition latest_for_name_rows (s : Store) (klass_name project_name : string)
    : list Klass.t :=
  match Managers.latest_iexact s project_name with
  | None => []
  | Some latest =>
      filter (fun k =>
                iexact (Klass.name k) klass_name
                && ProjectVersion.eqb (Module_.project_version (Klass.module k)) latest)
             (klasses s)
  end.

(** A Class-by-name view after its hint was set. *)
Definition latest_klass_hint (k : Klass.t) : LatestKlassDetailView.View :=
  {| LatestKlassDetailView.push_state_url :=
       Some (Managers.klass_get_absolute_url k) |}.

(** The classes whose module belongs to the version [pv]. *)
Definition classes_of (s : Store) (pv : ProjectVersion.t) : list Klass.t :=
  filter (fun k => ProjectVersion.eqb (Module_.project_version (Klass.module k)) pv)
         (klasses s).

(** The context of the Version page and of the home page. *)
Definition version_context (s : Store) (pv : ProjectVersion.t)
    : VersionDetailView.Context :=
  {| VersionDetailView.context_object_list := classes_of s pv;
     VersionDetailView.context_projectversion := pv |}.

(** A Version view after [self.project_version] was set. *)
Definition version_view (pv : ProjectVersion.t) : VersionDetailView.View :=
  {| VersionDetailView.project_version := Some pv |}.

(** An operation is [stable] when, from every state of the world, it leaves
    the store as it found it, answers the same when run again on the view
    instance it has just used, and answers the same when run again as a new
    request with the same view attributes. *)
Definition stable {V A : Type} (op : M V A) : Prop :=
  forall w : World V,
    db (snd (op w)) = db w
    /\ fst (op (snd (op w))) = fst (op w)
    /\ fst (op (request (db (snd (op w))) (self w))) = fst (op w).

(** ** class RedirectToLatestVersionView(RedirectView) *)

(** A Python [dict] with text keys, as the list of its items in insertion
    order. *)
Definition Dict : Type := list (string * string).

Fixpoint dict_get (d : Dict) (key : string) : option string :=
  match d with
  | [] => None
  | (k, v) :: r => if String.eqb k key then Some v else dict_get r key
  end.

(** [d[key] = value]: an existing key keeps its place, a new one goes last. *)
Fixpoint dict_set (d : Dict) (key value : string) : Dict :=
  match d with
  | [] => [(key, value)]
  | (k, v) :: r =>
      if String.eqb k key then (k, value) :: r else (k, v) :: dict_set r key value
  end.

(** [{**d, **extra}] *)
Definition dict_update (d extra : Dict) : Dict :=
  fold_left (fun acc kv => dict_set acc (fst kv) (snd kv)) extra d.

Module RedirectToLatestVersionView.

Record View : Type := { url : option Url }.

(** [RedirectView.url = None] *)
Definition new : View := {| url := None |}.

(** The two calls into Django are arguments: [reverse], which answers with
    a URL or raises [NoReverseMatch], and the [get_redirect_url] of the base
    class [RedirectView], reached through [super()], which reads [self.url]
    and formats it with the keyword arguments (and raises when the URL is
    no valid format string). *)
Definition get_redirect_url {A : Type}
    (reverse : string -> Dict -> Result Url)
    (super_get_redirect_url : Dict -> M View A)
    (package url_name : string) (kwargs : Dict) : M View A :=
  latest <- Managers.get_latest package ;;
  let kwargs := dict_set kwargs "version" (ProjectVersion.version_number latest) in
  u <- lift (reverse url_name (dict_update [("package", package)] kwargs)) ;;
  write_self (fun _ => {| url := Some u |}) ;;
  super_get_redirect_url kwargs.

End RedirectToLatestVersionView.

(** ** More fixtures *)

Module Twins.

(** Two packages whose names differ in case only, one version each under
    the same number. *)
Definition django_lower : Project.t := Project.Build 2 "django".
Definition v2_0_lower : ProjectVersion.t :=
  ProjectVersion.Build 32 django_lower "2.0" 200.
Definition m2_0_lower : Module_.t := Module_.Build 32 v2_0_lower "m".

Definition package_twins : Store :=
  {| project_versions := [Fixtures.v2_0; v2_0_lower];
     modules := [Fixtures.m2_0; m2_0_lower];
     klasses := [Fixtures.c2_0] |}.

(** A store that holds the lower-case package alone, with one class. *)
Definition c2_0_lower : Klass.t := Klass.Build 32 m2_0_lower "C".

Definition lower_only : Store :=
  {| project_versions := [v2_0_lower];
     modules := [m2_0_lower];
     klasses := [c2_0_lower] |}.

End Twins.

(** ** Identities and integrity of a store *)

(** The request that spells the stored identity of a class. *)
Definition klass_canonical_kwargs (k : Klass.t) : Kwargs :=
  let m := Klass.module k in
  let v := Module_.project_version m in
  {| package := Project.name (ProjectVersion.project v);
     version := ProjectVersion.version_number v;
     module := Module_.name m;
     klass := Klass.name k |}.

(** The keyword arguments the route "klass-detail" reads back from a URL. *)
Definition klass_url_kwargs (u : Url) : option Kwargs :=
  match dict_get (url_kwargs u) "package", dict_get (url_kwargs u) "version",
        dict_get (url_kwargs u) "module", dict_get (url_kwargs u) "klass" with
  | Some p, Some v, Some m, Some k =>
      Some {| package := p; version := v; module := m; klass := k |}
  | _, _, _, _ => None
  end.

(** The URL a request for a class was made under. *)
Definition klass_request_url (kw : Kwargs) : Url :=
  reverse "klass-detail"
    [("package", package kw); ("version", version kw);
     ("module", module kw); ("klass", klass kw)].

(** No two rows of the class table, and no two classes under one identity
    (package name, version number, module name, class name). *)
Definition klass_identity_unique (s : Store) : Prop :=
  NoDup (klasses s)
  /\ forall k1 k2, In k1 (klasses s) -> In k2 (klasses s) ->
       KlassDetailView.precise (klass_canonical_kwargs k1) k2 = true -> k1 = k2.

(** No two rows of the module table, and no two modules of one version
    under one name. *)
Definition module_identity_unique (s : Store) : Prop :=
  NoDup (modules s)
  /\ forall m1 m2, In m1 (modules s) -> In m2 (modules s) ->
       ProjectVersion.pk (Module_.project_version m1)
       = ProjectVersion.pk (Module_.project_version m2) ->
       Module_.name m1 = Module_.name m2 -> m1 = m2.

(** The foreign keys resolve: the version a module carries is a row of the
    version table, the module a class carries is a row of the module
    table. *)
Definition references_resolve (s : Store) : Prop :=
  (forall m, In m (modules s) -> In (Module_.project_version m) (project_versions s))
  /\ (forall k, In k (klasses s) -> In (Klass.module k) (modules s)).

(** [latest] is the newest stored version of the package named up to case:
    every other version of such a package has a smaller sortable number. *)
Definition newest_version (s : Store) (project_name : string)
    (latest : ProjectVersion.t) : Prop :=
  In latest (project_versions s)
  /\ iexact (Project.name (ProjectVersion.project latest)) project_name = true
  /\ forall v, In v (project_versions s) ->
       iexact (Project.name (ProjectVersion.project v)) project_name = true ->
       v = latest
       \/ ProjectVersion.sortable_version_number v
          < ProjectVersion.sortable_version_number latest.

(** The number of queries a run has issued. *)
Definition round_trips {V A : Type} (run : Result A * World V) : nat :=
  List.length (queries (snd run)).

(** * Properties *)

(** ** Text lookups *)

Lemma exact_eq (a b : string) : exact a b = true <-> a = b.
Proof. unfold exact. apply String.eqb_eq. Qed.

Lemma iexact_refl (a : string) : iexact a a = true.
Proof. unfold iexact. apply String.eqb_refl. Qed.

Lemma exact_iexact (a b : string) : exact a b = true -> iexact a b = true.
Proof. intros H. apply exact_eq in H. subst b. apply iexact_refl. Qed.

Lemma klass_precise_fuzzy (kw : Kwargs) (k : Klass.t) :
  KlassDetailView.precise kw k = true -> KlassDetailView.fuzzy kw k = true.
Proof.
  unfold KlassDetailView.precise, KlassDetailView.fuzzy.
  rewrite !andb_true_iff.
  intros [[[H1 H2] H3] H4].
  repeat split; now apply exact_iexact.
Qed.

Lemma filter_nil_incl {A : Type} (p q : A -> bool) (l : list A) :
  (forall x, p x = true -> q x = true) ->
  filter q l = [] -> filter p l = [].
Proof.
  intros Hpq. induction l as [|x l IH]; simpl; [reflexivity|].
  destruct (q x) eqn:Hq; [discriminate|].
  destruct (p x) eqn:Hp.
  - apply Hpq in Hp. congruence.
  - exact IH.
Qed.

Lemma filter_nil_false {A : Type} (p : A -> bool) (l : list A) (x : A) :
  filter p l = [] -> In x l -> p x = false.
Proof.
  intros H Hin. destruct (p x) eqn:Hp; [|reflexivity].
  assert (Hx : In x (filter p l)) by (apply filter_In; now split).
  rewrite H in Hx. destruct Hx.
Qed.

Lemma filter_all_false {A : Type} (p : A -> bool) (l : list A) :
  (forall x, In x l -> p x = false) -> filter p l = [].
Proof.
  induction l as [|y l IH]; intros H; simpl; [reflexivity|].
  rewrite (H y (or_introl eq_refl)). apply IH.
  intros x Hx. apply H. now right.
Qed.

(** ** Ordering *)

Section OrderBy.
Context {A : Type} (leb : A -> A -> bool).

Lemma insert_by_perm (x : A) (l : list A) :
  Permutation (insert_by leb x l) (x :: l).
Proof.
  induction l as [|y r IH]; simpl.
  - apply Permutation_refl.
  - destruct (leb x y).
    + apply Permutation_refl.
    + eapply perm_trans; [apply perm_skip, IH | apply perm_swap].
Qed.

Lemma order_by_perm (l : list A) : Permutation (order_by leb l) l.
Proof.
  induction l as [|x r IH]; simpl.
  - apply perm_nil.
  - eapply perm_trans; [apply insert_by_perm | apply perm_skip, IH].
Qed.

Lemma order_by_In (l : list A) (x : A) : In x (order_by leb l) <-> In x l.
Proof.
  split; apply Permutation_in;
    [apply order_by_perm | apply Permutation_sym, order_by_perm].
Qed.

Hypothesis leb_total : forall a b, leb a b = true \/ leb b a = true.
Hypothesis leb_trans :
  forall a b c, leb a b = true -> leb b c = true -> leb a c = true.

Let R (a b : A) : Prop := leb a b = true.

Lemma insert_by_sorted (x : A) (l : list A) :
  StronglySorted R l -> StronglySorted R (insert_by leb x l).
Proof.
  induction 1 as [|y r Hr IH Hy]; simpl.
  - constructor; constructor.
  - destruct (leb x y) eqn:Hxy.
    + constructor; [now constructor|].
      constructor; [exact Hxy|].
      rewrite Forall_forall in *. intros z Hz.
      eapply leb_trans; [exact Hxy | now apply Hy].
    + constructor; [exact IH|].
      rewrite Forall_forall in *. intros z Hz.
      apply (Permutation_in _ (insert_by_perm x r)) in Hz.
      destruct Hz as [<-|Hz]; [|now apply Hy].
      destruct (leb_total x y) as [H|H]; [congruence|exact H].
Qed.

Lemma order_by_sorted (l : list A) : StronglySorted R (order_by leb l).
Proof.
  induction l as [|x r IH]; simpl.
  - constructor.
  - now apply insert_by_sorted.
Qed.

Lemma order_by_head (l : list A) (v : A) (r : list A) :
  order_by leb l = v :: r ->
  In v l /\ forall x, In x l -> leb v x = true.
Proof.
  intros H. split.
  - apply order_by_In. rewrite H. now left.
  - intros x Hx. apply order_by_In in Hx. rewrite H in Hx.
    pose proof (order_by_sorted l) as Hs. rewrite H in Hs.
    inversion Hs as [|? ? _ Hall]; subst.
    destruct Hx as [<-|Hx].
    + destruct (leb_total v v); assumption.
    + rewrite Forall_forall in Hall. now apply Hall.
Qed.
End OrderBy.

Lemma order_by_nil {A : Type} (leb : A -> A -> bool) (l : list A) :
  order_by leb l = [] <-> l = [].
Proof.
  split; [|now intros ->].
  intros H. pose proof (order_by_perm leb l) as P. rewrite H in P.
  now apply Permutation_nil in P.
Qed.

Lemma newest_first_total (a b : ProjectVersion.t) :
  newest_first a b = true \/ newest_first b a = true.
Proof. unfold newest_first. rewrite !Z.leb_le. lia. Qed.

Lemma newest_first_trans (a b c : ProjectVersion.t) :
  newest_first a b = true -> newest_first b c = true -> newest_first a c = true.
Proof. unfold newest_first. rewrite !Z.leb_le. lia. Qed.

(** ** Comparisons that order rows by a key *)

Lemma string_compare_refl (x : string) : String_as_OT.compare x x = Eq.
Proof.
  destruct (String_as_OT.compare_spec x x) as [_|H|H]; [reflexivity| |];
    exfalso; revert H; apply (StrictOrder_Irreflexive (R := String_as_OT.lt)).
Qed.

Lemma string_compare_antisym (x y : string) :
  String_as_OT.compare y x = CompOpp (String_as_OT.compare x y).
Proof.
  destruct (String_as_OT.compare_spec x y) as [E|H|H];
    destruct (String_as_OT.compare_spec y x) as [E'|H'|H']; simpl;
    try reflexivity; unfold String_as_OT.eq in *; subst; exfalso;
    try (revert H; apply (StrictOrder_Irreflexive (R := String_as_OT.lt)));
    try (revert H'; apply (StrictOrder_Irreflexive (R := String_as_OT.lt)));
    apply (StrictOrder_Irreflexive (R := String_as_OT.lt) x);
    eapply (StrictOrder_Transitive (R := String_as_OT.lt)); eassumption.
Qed.

Lemma string_compare_eq (x y : string) : String_as_OT.compare x y = Eq <-> x = y.
Proof.
  split.
  - intros H. destruct (String_as_OT.compare_spec x y) as [E|_|_];
      [exact E|discriminate|discriminate].
  - intros ->. apply string_compare_refl.
Qed.

Lemma by_string_key {T : Type} (f : T -> string) :
  KeyOrder (fun a b => String_as_OT.compare (f a) (f b)).
Proof.
  split.
  - intros a b. apply string_compare_antisym.
  - intros a b c. apply (StrictOrder_Transitive (R := String_as_OT.lt)).
  - intros a b x H. apply string_compare_eq in H. now rewrite H.
Qed.

Lemma by_Z_key_desc {T : Type} (f : T -> Z) :
  KeyOrder (fun a b => Z.compare (f b) (f a)).
Proof.
  split.
  - intros a b. apply Z.compare_antisym.
  - intros a b c. rewrite !Z.compare_lt_iff. lia.
  - intros a b x H. apply Z.compare_eq in H. now rewrite H.
Qed.

Lemma lex_key_order {T : Type} (c1 c2 : T -> T -> comparison) :
  KeyOrder c1 -> KeyOrder c2 -> KeyOrder (fun a b => lex (c1 a b) (c2 a b)).
Proof.
  intros [A1 T1 E1] [A2 T2 E2]. split.
  - intros a b. rewrite A1, A2. now destruct (c1 a b).
  - intros a b c. unfold lex.
    destruct (c1 a b) eqn:Hab; try discriminate.
    + rewrite (E1 a b c Hab).
      destruct (c1 b c); try discriminate; [apply T2|reflexivity].
    + intros _. destruct (c1 b c) eqn:Hbc; try discriminate.
      * assert (Hba : c1 c b = Eq) by (rewrite A1, Hbc; reflexivity).
        assert (Hca : c1 c a = c1 b a) by (apply E1; exact Hba).
        rewrite (A1 a c), (A1 a b), Hab in Hca. simpl in Hca.
        destruct (c1 a c); simpl in Hca; congruence.
      * intros _. now rewrite (T1 a b c Hab Hbc).
  - intros a b x. unfold lex.
    destruct (c1 a b) eqn:Hab; try discriminate.
    intros H. rewrite (E1 a b x Hab).
    destruct (c1 b x); [apply E2; exact H|reflexivity|reflexivity].
Qed.

Lemma key_order_total {T : Type} (cmp : T -> T -> comparison) :
  KeyOrder cmp -> forall a b, not_gt (cmp a b) = true \/ not_gt (cmp b a) = true.
Proof.
  intros [A _ _] a b. rewrite (A a b). destruct (cmp a b); simpl; auto.
Qed.

Lemma key_order_trans {T : Type} (cmp : T -> T -> comparison) :
  KeyOrder cmp ->
  forall a b c, not_gt (cmp a b) = true -> not_gt (cmp b c) = true ->
                not_gt (cmp a c) = true.
Proof.
  intros [A Tr E] a b c.
  destruct (cmp a b) eqn:Hab; try discriminate; intros _.
  - now rewrite (E a b c Hab).
  - destruct (cmp b c) eqn:Hbc; try discriminate; intros _.
    + assert (Hcb : cmp c b = Eq) by (rewrite A, Hbc; reflexivity).
      pose proof (E c b a Hcb) as H.
      rewrite (A a c), (A a b), Hab in H. simpl in H.
      destruct (cmp a c); simpl in H; [discriminate|reflexivity|discriminate].
    + now rewrite (Tr a b c Hab Hbc).
Qed.

Lemma sitemap_compare_key_order : KeyOrder sitemap_compare.
Proof.
  unfold sitemap_compare.
  apply (lex_key_order
           (fun a b => String_as_OT.compare
              (Project.name (ProjectVersion.project (Module_.project_version (Klass.module a))))
              (Project.name (ProjectVersion.project (Module_.project_version (Klass.module b)))))).
  - apply (by_string_key (fun a => Project.name (ProjectVersion.project
                                      (Module_.project_version (Klass.module a))))).
  - apply (lex_key_order
             (fun a b => Z.compare
                (ProjectVersion.sortable_version_number (Module_.project_version (Klass.module b)))
                (ProjectVersion.sortable_version_number (Module_.project_version (Klass.module a))))).
    + apply (by_Z_key_desc (fun a => ProjectVersion.sortable_version_number
                                       (Module_.project_version (Klass.module a)))).
    + apply (lex_key_order
               (fun a b => String_as_OT.compare (Module_.name (Klass.module a))
                                                (Module_.name (Klass.module b)))
               (fun a b => String_as_OT.compare (Klass.name a) (Klass.name b))).
      * apply (by_string_key (fun a => Module_.name (Klass.module a))).
      * apply (by_string_key Klass.name).
Qed.

Lemma sitemap_leb_order (a b : Klass.t) :
  sitemap_leb a b = true <-> SitemapOrder a b.
Proof.
  unfold sitemap_leb, sitemap_compare, SitemapOrder, String_as_OT.lt; cbv zeta.
  set (pa := Project.name (ProjectVersion.project (Module_.project_version (Klass.module a)))).
  set (pb := Project.name (ProjectVersion.project (Module_.project_version (Klass.module b)))).
  set (na := ProjectVersion.sortable_version_number (Module_.project_version (Klass.module a))).
  set (nb := ProjectVersion.sortable_version_number (Module_.project_version (Klass.module b))).
  set (ma := Module_.name (Klass.module a)).
  set (mb := Module_.name (Klass.module b)).
  split.
  - destruct (String_as_OT.compare pa pb) eqn:Hp; simpl; try discriminate; auto.
    apply string_compare_eq in Hp. intros H. right. split; [exact Hp|].
    revert H. destruct (Z.compare nb na) eqn:Hn; simpl; try discriminate.
    + apply Z.compare_eq in Hn. intros H. right. split; [now symmetry|].
      revert H. destruct (String_as_OT.compare ma mb) eqn:Hm; simpl;
        try discriminate; auto.
      apply string_compare_eq in Hm. intros H. right. split; [exact Hm|].
      destruct (String_as_OT.compare (Klass.name a) (Klass.name b)) eqn:Hk;
        try discriminate; auto.
      apply string_compare_eq in Hk. now right.
    + rewrite Z.compare_lt_iff in Hn. auto.
  - intros [H|[Hp [H|[Hn [H|[Hm [H|H]]]]]]].
    + now rewrite H.
    + rewrite Hp, string_compare_refl. simpl.
      apply Z.compare_lt_iff in H. now rewrite H.
    + rewrite Hp, string_compare_refl, Hn, Z.compare_refl. simpl. now rewrite H.
    + rewrite Hp, string_compare_refl, Hn, Z.compare_refl, Hm, string_compare_refl.
      simpl. now rewrite H.
    + rewrite Hp, string_compare_refl, Hn, Z.compare_refl, Hm, string_compare_refl, H,
        string_compare_refl. reflexivity.
Qed.

(** ** Running a request *)

Lemma objects_get_run {V A} (m : Model) (l : Lookup) (table : Store -> list A)
    (p : A -> bool) (w : World V) :
  objects_get m l table p w
  = (get_row m (filter p (table (db w))), traced w [QGet m l]).
Proof. reflexivity. Qed.

(** *** KlassDetailView *)

(** The outcome of [KlassDetailView.get_object], by the rows the two
    filters select. *)
Lemma klass_get_object_run (kw : Kwargs) (w : World KlassDetailView.View) :
  KlassDetailView.get_object kw w =
  match filter (KlassDetailView.precise kw) (klasses (db w)) with
  | [k] => (Ok k, traced w [QGet KlassModel Exact])
  | _ :: _ :: _ =>
      (Raise (MultipleObjectsReturned KlassModel), traced w [QGet KlassModel Exact])
  | [] =>
      let w' := traced w [QGet KlassModel Exact; QGet KlassModel IExact] in
      match filter (KlassDetailView.fuzzy kw) (klasses (db w)) with
      | [k] => (Ok k, with_self w' (klass_hint k))
      | [] => (Raise Http404, w')
      | _ :: _ :: _ => (Raise (MultipleObjectsReturned KlassModel), w')
      end
  end.
Proof.
  unfold KlassDetailView.get_object, KlassDetailView.get_precise_object,
    KlassDetailView.get_fuzzy_object, try_except, bind.
  rewrite objects_get_run.
  destruct (filter (KlassDetailView.precise kw) (klasses (db w))) as [|k [|k' r]];
    simpl; try reflexivity.
  destruct (filter (KlassDetailView.fuzzy kw) (klasses (db w))) as [|k [|k' r]];
    simpl; unfold traced, with_self; simpl; rewrite <- ?app_assoc; reflexivity.
Qed.

Lemma klass_get_run (kw : Kwargs) (w : World KlassDetailView.View) :
  KlassDetailView.get kw w =
  match KlassDetailView.get_object kw w with
  | (Ok k, w') =>
      (Ok {| KlassDetailView.context_object := k;
             KlassDetailView.context_push_state_url :=
               KlassDetailView.push_state_url (self w') |}, w')
  | (Raise e, w') => (Raise e, w')
  end.
Proof.
  unfold KlassDetailView.get, bind.
  destruct (KlassDetailView.get_object kw w) as [[k|e] w']; reflexivity.
Qed.

(** C1.  A key tuple (package, version, module, class) that matches exactly
    one class on all four fields with case-sensitive equality resolves to
    that class, [push_state_url] keeps its initial [None], and the context
    of the page carries no redirect hint. *)
Theorem klass_exact_match_no_redirect (s : Store) (kw : Kwargs) (k : Klass.t) :
  filter (KlassDetailView.precise kw) (klasses s) = [k] ->
  let w := request s KlassDetailView.new in
  fst (KlassDetailView.get_object kw w) = Ok k
  /\ KlassDetailView.push_state_url (self (snd (KlassDetailView.get_object kw w))) = None
  /\ fst (KlassDetailView.get kw w)
     = Ok {| KlassDetailView.context_object := k;
             KlassDetailView.context_push_state_url := None |}.
Proof.
  intros H w.
  rewrite klass_get_run, klass_get_object_run.
  subst w; simpl. rewrite H. simpl. auto.
Qed.

Lemma klass_exact_match_no_redirect_witness :
  filter (KlassDetailView.precise (Fixtures.kwargs "Django" "2.0" "m" "C"))
         (klasses Fixtures.two_versions) = [Fixtures.c2_0]
  /\ fst (KlassDetailView.get (Fixtures.kwargs "Django" "2.0" "m" "C")
            (request Fixtures.two_versions KlassDetailView.new))
     = Ok {| KlassDetailView.context_object := Fixtures.c2_0;
             KlassDetailView.context_push_state_url := None |}.
Proof.
  split; [reflexivity|].
  apply (klass_exact_match_no_redirect Fixtures.two_versions
           (Fixtures.kwargs "Django" "2.0" "m" "C") Fixtures.c2_0).
  reflexivity.
Defined.

(** C2.  A key tuple that no class matches exactly and exactly one class
    matches without case resolves to that class, and the redirect hint is
    the canonical URL of the class, built from the stored package name,
    version number, module name and class name of the record, whatever the
    case of the request was. *)
Theorem klass_fuzzy_match_redirects_to_stored_url
    (s : Store) (kw : Kwargs) (k : Klass.t) :
  filter (KlassDetailView.precise kw) (klasses s) = [] ->
  filter (KlassDetailView.fuzzy kw) (klasses s) = [k] ->
  let w := request s KlassDetailView.new in
  let m := Klass.module k in
  let v := Module_.project_version m in
  fst (KlassDetailView.get_object kw w) = Ok k
  /\ fst (KlassDetailView.get kw w)
     = Ok {| KlassDetailView.context_object := k;
             KlassDetailView.context_push_state_url :=
               Some (reverse "klass-detail"
                       [("package", Project.name (ProjectVersion.project v));
                        ("version", ProjectVersion.version_number v);
                        ("module", Module_.name m);
                        ("klass", Klass.name k)]) |}.
Proof.
  intros Hp Hf w m v.
  rewrite klass_get_run, klass_get_object_run.
  subst w; simpl. rewrite Hp, Hf. simpl. auto.
Qed.

Lemma klass_fuzzy_match_redirects_to_stored_url_witness :
  filter (KlassDetailView.precise (Fixtures.kwargs "django" "2.0" "M" "c"))
         (klasses Fixtures.two_versions) = []
  /\ filter (KlassDetailView.fuzzy (Fixtures.kwargs "django" "2.0" "M" "c"))
            (klasses Fixtures.two_versions) = [Fixtures.c2_0]
  /\ fst (KlassDetailView.get (Fixtures.kwargs "django" "2.0" "M" "c")
            (request Fixtures.two_versions KlassDetailView.new))
     = Ok {| KlassDetailView.context_object := Fixtures.c2_0;
             KlassDetailView.context_push_state_url :=
               Some (reverse "klass-detail"
                       [("package", "Django"); ("version", "2.0");
                        ("module", "m"); ("klass", "C")]) |}.
Proof.
  split; [reflexivity|]. split; [reflexivity|].
  apply (klass_fuzzy_match_redirects_to_stored_url Fixtures.two_versions
           (Fixtures.kwargs "django" "2.0" "M" "c") Fixtures.c2_0);
    reflexivity.
Defined.

(** *** ModuleDetailView *)

(** The outcome of the Module page, by the rows the three filters select. *)
Lemma module_get_run (kw : Kwargs) (w : World ModuleDetailView.View) :
  ModuleDetailView.get kw w =
  let s := db w in
  let hint := ModuleDetailView.push_state_url (self w) in
  let obj := ModuleDetailView.object (self w) in
  let qv := QGet ProjectVersionModel IExact in
  let qe := QGet ModuleModel Exact in
  let qi := QGet ModuleModel IExact in
  match filter (ModuleDetailView.version_fuzzy kw) (project_versions s) with
  | [] => (Raise Http404, traced w [qv])
  | _ :: _ :: _ => (Raise (MultipleObjectsReturned ProjectVersionModel), traced w [qv])
  | [pv] =>
      match filter (ModuleDetailView.precise kw pv) (modules s) with
      | [m] =>
          (Ok (module_context s pv m hint),
           with_self (traced w [qv; qe; QFilter KlassModel])
                     (module_view hint (Some pv) (Some m)))
      | _ :: _ :: _ =>
          (Raise (MultipleObjectsReturned ModuleModel),
           with_self (traced w [qv; qe]) (module_view hint (Some pv) obj))
      | [] =>
          match filter (ModuleDetailView.fuzzy kw) (modules s) with
          | [m] =>
              let url := Some (Managers.module_get_absolute_url m) in
              (Ok (module_context s pv m url),
               with_self (traced w [qv; qe; qi; QRelated ModuleModel;
                                    QRelated ProjectVersionModel;
                                    QFilter KlassModel])
                         (module_view url (Some pv) (Some m)))
          | [] =>
              (Raise Http404,
               with_self (traced w [qv; qe; qi]) (module_view hint (Some pv) obj))
          | _ :: _ :: _ =>
              (Raise (MultipleObjectsReturned ModuleModel),
               with_self (traced w [qv; qe; qi]) (module_view hint (Some pv) obj))
          end
      end
  end.
Proof.
  unfold ModuleDetailView.get, ModuleDetailView.super_get,
    ModuleDetailView.get_object, ModuleDetailView.get_precise_object,
    ModuleDetailView.get_fuzzy_object, ModuleDetailView.get_context_data,
    ModuleDetailView.attribute, Managers.module_get_absolute_url_unloaded,
    objects_filter, try_except, bind.
  rewrite objects_get_run.
  destruct (filter (ModuleDetailView.version_fuzzy kw) (project_versions (db w)))
    as [|pv [|pv' r]]; simpl; try reflexivity.
  destruct (filter (ModuleDetailView.precise kw pv) (modules (db w)))
    as [|m [|m' r]]; simpl;
    [ | unfold traced, with_self, module_context, module_view; simpl;
        rewrite <- ?app_assoc; reflexivity .. ].
  destruct (filter (ModuleDetailView.fuzzy kw) (modules (db w)))
    as [|m [|m' r]]; simpl;
    unfold traced, with_self, module_context, module_view; simpl;
    rewrite <- ?app_assoc; reflexivity.
Qed.

(** A Version that does not resolve ends the Module page with [Http404]
    after the Version query alone. *)
Lemma module_page_version_miss (kw : Kwargs) (s : Store) :
  filter (ModuleDetailView.version_fuzzy kw) (project_versions s) = [] ->
  ModuleDetailView.get kw (request s ModuleDetailView.new)
  = (Raise Http404,
     traced (request s ModuleDetailView.new) [QGet ProjectVersionModel IExact]).
Proof. intros H. rewrite module_get_run. simpl. now rewrite H. Qed.

Lemma filter_singleton {A : Type} (p : A -> bool) (l : list A) (x : A) :
  filter p l = [x] -> In x l /\ p x = true.
Proof.
  intros H. apply filter_In. rewrite H. now left.
Qed.



(** C4, on the code.  The request names the package "django" where the
    store has "Django"; version and module are spelled as stored.  The
    Version resolves through the case-insensitive query only, the Module
    page succeeds, and its context carries no redirect hint: the mismatch
    found at the Version level is lost, where the Class page for the same
    package spelling does produce the hint. *)
Theorem module_page_drops_version_mismatch :
  let kw := Fixtures.kwargs "django" "2.0" "m" "C" in
  filter (fun v => exact (ProjectVersion.version_number v) (version kw)
                   && exact (Project.name (ProjectVersion.project v)) (package kw))
         (project_versions Fixtures.two_versions) = []
  /\ filter (ModuleDetailView.version_fuzzy kw)
            (project_versions Fixtures.two_versions) = [Fixtures.v2_0]
  /\ fst (ModuleDetailView.get kw (request Fixtures.two_versions ModuleDetailView.new))
     = Ok {| ModuleDetailView.context_object := Fixtures.m2_0;
             ModuleDetailView.context_project_version := Fixtures.v2_0;
             ModuleDetailView.context_klass_list := [Fixtures.c2_0];
             ModuleDetailView.context_push_state_url := None |}
  /\ fst (KlassDetailView.get kw (request Fixtures.two_versions KlassDetailView.new))
     = Ok {| KlassDetailView.context_object := Fixtures.c2_0;
             KlassDetailView.context_push_state_url :=
               Some (Managers.klass_get_absolute_url Fixtures.c2_0) |}.
Proof. repeat split. Qed.

(** *** The version selector and the sitemap *)

Lemma get_latest_run {V} (name : string) (w : World V) :
  Managers.get_latest name w =
  match order_by newest_first (versions_of (db w) name) with
  | [] => (Raise (DoesNotExist ProjectVersionModel), traced w [QLatest])
  | v :: _ => (Ok v, traced w [QLatest])
  end.
Proof.
  unfold Managers.get_latest, versions_of, bind. simpl.
  destruct (order_by newest_first _); reflexivity.
Qed.

Lemma versions_of_In (s : Store) (name : string) (v : ProjectVersion.t) :
  In v (versions_of s name)
  <-> In v (project_versions s) /\ Project.name (ProjectVersion.project v) = name.
Proof. unfold versions_of. rewrite filter_In, exact_eq. reflexivity. Qed.

Lemma fold_left_append {A B : Type} (f : A -> B) (l : list A) (acc : list B) :
  fold_left (fun urls k => (urls ++ [f k])%list) l acc = (acc ++ map f l)%list.
Proof.
  revert acc. induction l as [|x l IH]; intros acc; simpl.
  - now rewrite app_nil_r.
  - rewrite IH, <- app_assoc. reflexivity.
Qed.

Lemma sitemap_run (w : World unit) :
  Sitemap.get_context_data w =
  match Managers.get_latest "Django" w with
  | (Ok latest, w') =>
      (Ok {| Sitemap.urlset :=
               Sitemap.home_entry
               :: map (Sitemap.klass_entry latest)
                      (order_by sitemap_leb (klasses (db w))) |},
       traced w' [QOrderBy KlassModel])
  | (Raise e, w') => (Raise e, w')
  end.
Proof.
  unfold Sitemap.get_context_data, Sitemap.ordered_klasses, bind.
  rewrite get_latest_run.
  destruct (order_by newest_first (versions_of (db w) "Django")); simpl;
    [reflexivity|].
  rewrite fold_left_append. reflexivity.
Qed.

Lemma StronglySorted_impl {A : Type} (P Q : A -> A -> Prop) (l : list A) :
  (forall a b, P a b -> Q a b) -> StronglySorted P l -> StronglySorted Q l.
Proof.
  intros HPQ. induction 1 as [|x l Hl IH Hx]; constructor.
  - exact IH.
  - eapply Forall_impl; [|exact Hx]. intros b. apply HPQ.
Qed.

Lemma sitemap_query_sorted (l : list Klass.t) :
  StronglySorted SitemapOrder (order_by sitemap_leb l).
Proof.
  apply (StronglySorted_impl (fun a b => sitemap_leb a b = true)).
  - intros a b. apply sitemap_leb_order.
  - apply order_by_sorted.
    + apply (key_order_total _ sitemap_compare_key_order).
    + apply (key_order_trans _ sitemap_compare_key_order).
Qed.

(** C5.  When the latest version of "Django" resolves, the sitemap is the
    home entry at priority 1.0 followed by one entry per class, the classes
    taken in the order (package name ascending, sortable version number
    descending, module name ascending, class name ascending); a class has
    priority 0.9 when the version of its module equals that latest version
    and 0.5 otherwise.  For the store with the package "Django", versions
    "1.0" and "2.0", one module and one class each, the output is home
    (1.0), the class of "2.0" (0.9), the class of "1.0" (0.5). *)
Theorem sitemap_home_then_ordered_classes :
  (forall (s : Store) (latest : ProjectVersion.t),
     fst (Managers.get_latest "Django" (request s tt)) = Ok latest ->
     exists ks : list Klass.t,
       fst (Sitemap.get_context_data (request s tt))
       = Ok {| Sitemap.urlset :=
                 {| Sitemap.location := reverse "home" [];
                    Sitemap.priority := 1%Q |}
                 :: map (fun k =>
                           {| Sitemap.location := Managers.klass_get_absolute_url k;
                              Sitemap.priority :=
                                if ProjectVersion.eqb
                                     (Module_.project_version (Klass.module k)) latest
                                then (9 # 10)%Q else (1 # 2)%Q |}) ks |}
       /\ Permutation ks (klasses s)
       /\ StronglySorted SitemapOrder ks)
  /\ fst (Sitemap.get_context_data (request Fixtures.two_versions tt))
     = Ok {| Sitemap.urlset :=
               [ {| Sitemap.location := reverse "home" [];
                    Sitemap.priority := 1%Q |};
                 {| Sitemap.location :=
                      reverse "klass-detail"
                        [("package", "Django"); ("version", "2.0");
                         ("module", "m"); ("klass", "C")];
                    Sitemap.priority := (9 # 10)%Q |};
                 {| Sitemap.location :=
                      reverse "klass-detail"
                        [("package", "Django"); ("version", "1.0");
                         ("module", "m"); ("klass", "C")];
                    Sitemap.priority := (1 # 2)%Q |} ] |}.
Proof.
  split; [|reflexivity].
  intros s latest H.
  exists (order_by sitemap_leb (klasses s)).
  split; [|split].
  - rewrite sitemap_run.
    destruct (Managers.get_latest "Django" (request s tt)) as [[v|e] w'];
      simpl in H; [|discriminate].
    injection H as ->. reflexivity.
  - apply order_by_perm.
  - apply sitemap_query_sorted.
Qed.

(** C6.  [get_latest] returns a version of the named package whose
    [sortable_version_number] is maximal among the versions of that package,
    it returns one whenever the package has a version, and it fails with
    the not-found signal exactly when no version carries that package name.
    With "1.9", "1.10" and "2.0" under their sortable keys it returns "2.0";
    with "1.9" and "1.10" alone it returns "1.10", where the comparison of
    the version strings puts "1.9" first. *)
Theorem get_latest_maximum_sortable :
  (forall (s : Store) (name : string),
     let latest := fst (Managers.get_latest name (request s tt)) in
     (forall v, latest = Ok v ->
        In v (project_versions s)
        /\ Project.name (ProjectVersion.project v) = name
        /\ forall v', In v' (project_versions s) ->
                      Project.name (ProjectVersion.project v') = name ->
                      ProjectVersion.sortable_version_number v'
                      <= ProjectVersion.sortable_version_number v)
     /\ ((exists v, In v (project_versions s)
                    /\ Project.name (ProjectVersion.project v) = name)
         <-> exists v, latest = Ok v)
     /\ ((forall v, In v (project_versions s) ->
                    Project.name (ProjectVersion.project v) <> name)
         <-> latest = Raise (DoesNotExist ProjectVersionModel)))
  /\ fst (Managers.get_latest "Django" (request Fixtures.three_versions tt))
     = Ok Fixtures.v2_0'
  /\ (let s := {| project_versions := [Fixtures.v1_9; Fixtures.v1_10];
                  modules := []; klasses := [] |} in
      fst (Managers.get_latest "Django" (request s tt)) = Ok Fixtures.v1_10
      /\ hd_error (order_by newest_first_by_text (project_versions s))
         = Some Fixtures.v1_9).
Proof.
  split; [|split; [reflexivity|split; reflexivity]].
  intros s name latest. subst latest.
  rewrite get_latest_run. simpl.
  destruct (order_by newest_first (versions_of s name)) as [|v r] eqn:Ho; simpl.
  - apply order_by_nil in Ho.
    split; [discriminate|]. split.
    + split.
      * intros [v [Hin Hn]].
        assert (Hv : In v (versions_of s name)) by now apply versions_of_In.
        rewrite Ho in Hv. destruct Hv.
      * intros [v Hv]. discriminate.
    + split; [reflexivity|].
      intros _ v Hin Hn.
      assert (Hv : In v (versions_of s name)) by now apply versions_of_In.
      rewrite Ho in Hv. destruct Hv.
  - destruct (order_by_head newest_first newest_first_total newest_first_trans
                _ _ _ Ho) as [Hin Hmax].
    apply versions_of_In in Hin. destruct Hin as [Hin Hname].
    split; [|split].
    + intros v0 [= <-]. split; [exact Hin|]. split; [exact Hname|].
      intros v' Hin' Hn'.
      assert (Hv : In v' (versions_of s name)) by now apply versions_of_In.
      apply Hmax in Hv. unfold newest_first in Hv. now apply Z.leb_le.
    + split; [intros _; now exists v|intros _; now exists v].
    + split; [|discriminate].
      intros H. exfalso. now apply (H v Hin).
Qed.

(** *** LatestKlassDetailView *)

Lemma latest_klass_get_object_run (kw : Kwargs) (w : World LatestKlassDetailView.View) :
  LatestKlassDetailView.get_object kw w =
  match latest_for_name_rows (db w) (klass kw) (package kw) with
  | [] => (Raise Http404, traced w [QLatestForName])
  | k :: _ => (Ok k, with_self (traced w [QLatestForName]) (latest_klass_hint k))
  end.
Proof.
  unfold LatestKlassDetailView.get_object, LatestKlassDetailView.get_precise_object,
    LatestKlassDetailView.get_fuzzy_object, Managers.get_latest_for_name,
    latest_for_name_rows, try_except, bind.
  simpl.
  destruct (Managers.latest_iexact (db w) (package kw)) as [latest|]; simpl;
    [|reflexivity].
  destruct (filter _ (klasses (db w))) as [|k r]; reflexivity.
Qed.

Lemma latest_klass_get_run (kw : Kwargs) (w : World LatestKlassDetailView.View) :
  LatestKlassDetailView.get kw w =
  match LatestKlassDetailView.get_object kw w with
  | (Ok k, w') =>
      (Ok {| LatestKlassDetailView.context_object := k;
             LatestKlassDetailView.context_push_state_url :=
               LatestKlassDetailView.push_state_url (self w') |}, w')
  | (Raise e, w') => (Raise e, w')
  end.
Proof.
  unfold LatestKlassDetailView.get, bind.
  destruct (LatestKlassDetailView.get_object kw w) as [[k|e] w']; reflexivity.
Qed.

Lemma latest_iexact_spec (s : Store) (project_name : string) (latest : ProjectVersion.t) :
  Managers.latest_iexact s project_name = Some latest ->
  In latest (project_versions s)
  /\ iexact (Project.name (ProjectVersion.project latest)) project_name = true
  /\ forall v, In v (project_versions s) ->
               iexact (Project.name (ProjectVersion.project v)) project_name = true ->
               ProjectVersion.sortable_version_number v
               <= ProjectVersion.sortable_version_number latest.
Proof.
  unfold Managers.latest_iexact. intros H.
  destruct (order_by newest_first _) as [|v0 r] eqn:Ho; simpl in H; [discriminate|].
  injection H as ->.
  destruct (order_by_head newest_first newest_first_total newest_first_trans
              _ _ _ Ho) as [Hin Hmax].
  apply filter_In in Hin. destruct Hin as [Hin Hname].
  split; [exact Hin|]. split; [exact Hname|].
  intros v Hv Hn.
  assert (Hf : In v (filter (fun v => iexact (Project.name (ProjectVersion.project v))
                                              project_name) (project_versions s)))
    by (apply filter_In; now split).
  apply Hmax in Hf. unfold newest_first in Hf. now apply Z.leb_le.
Qed.

Lemma newest_version_latest_iexact
    (s : Store) (project_name : string) (latest : ProjectVersion.t) :
  newest_version s project_name latest ->
  Managers.latest_iexact s project_name = Some latest.
Proof.
  intros [Hin [Hname Hnewest]]. unfold Managers.latest_iexact.
  set (named := fun v => iexact (Project.name (ProjectVersion.project v)) project_name).
  assert (Hl : In latest (filter named (project_versions s)))
    by (apply filter_In; now split).
  destruct (order_by newest_first (filter named (project_versions s)))
    as [|h r] eqn:Ho.
  - apply order_by_nil in Ho. rewrite Ho in Hl. destruct Hl.
  - destruct (order_by_head newest_first newest_first_total newest_first_trans
                _ _ _ Ho) as [Hh Hmax].
    apply filter_In in Hh. destruct Hh as [Hhin Hhname].
    specialize (Hmax latest Hl). unfold newest_first in Hmax.
    apply Z.leb_le in Hmax.
    destruct (Hnewest h Hhin Hhname) as [->|Hlt]; [reflexivity|lia].
Qed.

Lemma unknown_package_latest_iexact (s : Store) (project_name : string) :
  (forall v, In v (project_versions s) ->
             iexact (Project.name (ProjectVersion.project v)) project_name = false) ->
  Managers.latest_iexact s project_name = None.
Proof.
  intros H. unfold Managers.latest_iexact.
  now rewrite (filter_all_false _ _ H).
Qed.

(** C7.  The Class-by-name-latest page issues one query, the specialised
    lookup by name, and no exact-match lookup: its precise step raises
    [DoesNotExist] on every input without touching the store.  A class it
    returns is a stored class whose name equals the requested one up to
    case and whose version is the latest version of the package named up
    to case; there is no further disambiguation.  Where the package has a
    newest version, the page finds a class of that name in it whenever the
    store holds one, the class itself when it is the only one, and it
    fails exactly when the store holds none; it fails too when no package
    carries the name.  Every failure is [Http404]. *)
Theorem latest_klass_page_single_fuzzy_query (s : Store) (kw : Kwargs) :
  let w := request s LatestKlassDetailView.new in
  let run := LatestKlassDetailView.get_object kw w in
  let version_of (k : Klass.t) := Module_.project_version (Klass.module k) in
  LatestKlassDetailView.get_precise_object kw w = (Raise (DoesNotExist KlassModel), w)
  /\ queries (snd run) = [QLatestForName]
  /\ (forall k, fst run = Ok k ->
        In k (klasses s)
        /\ iexact (Klass.name k) (klass kw) = true
        /\ exists latest,
             In latest (project_versions s)
             /\ iexact (Project.name (ProjectVersion.project latest)) (package kw) = true
             /\ (forall v, In v (project_versions s) ->
                   iexact (Project.name (ProjectVersion.project v)) (package kw) = true ->
                   ProjectVersion.sortable_version_number v
                   <= ProjectVersion.sortable_version_number latest)
             /\ ProjectVersion.pk (version_of k) = ProjectVersion.pk latest)
  /\ (forall latest, newest_version s (package kw) latest ->
        (forall k, In k (klasses s) ->
           iexact (Klass.name k) (klass kw) = true ->
           ProjectVersion.pk (version_of k) = ProjectVersion.pk latest ->
           (exists k', fst run = Ok k'
                       /\ In k' (klasses s)
                       /\ iexact (Klass.name k') (klass kw) = true
                       /\ ProjectVersion.pk (version_of k') = ProjectVersion.pk latest)
           /\ ((forall k2, In k2 (klasses s) ->
                  iexact (Klass.name k2) (klass kw) = true ->
                  ProjectVersion.pk (version_of k2) = ProjectVersion.pk latest ->
                  k2 = k) ->
               fst run = Ok k))
        /\ (fst run = Raise Http404
            <-> forall k, In k (klasses s) ->
                  iexact (Klass.name k) (klass kw) = true ->
                  ProjectVersion.pk (version_of k) <> ProjectVersion.pk latest))
  /\ ((forall v, In v (project_versions s) ->
         iexact (Project.name (ProjectVersion.project v)) (package kw) = false) ->
      fst run = Raise Http404)
  /\ (forall e, fst run = Raise e -> e = Http404).
Proof.
  intros w run version_of. subst run w version_of.
  rewrite latest_klass_get_object_run. cbv zeta. simpl.
  split; [reflexivity|].
  split; [destruct (latest_for_name_rows s (klass kw) (package kw)); reflexivity|].
  split; [|split; [|split]].
  - (* what is returned *)
    intros k.
    destruct (latest_for_name_rows s (klass kw) (package kw)) as [|k0 r] eqn:Hrows;
      simpl; [discriminate|].
    intros [= <-].
    unfold latest_for_name_rows in Hrows.
    destruct (Managers.latest_iexact s (package kw)) as [latest|] eqn:Hl;
      [|discriminate].
    assert (Hk : In k0 (filter (fun k =>
                   iexact (Klass.name k) (klass kw)
                   && ProjectVersion.eqb (Module_.project_version (Klass.module k)) latest)
                 (klasses s))) by (rewrite Hrows; now left).
    apply filter_In in Hk. destruct Hk as [Hin Hk].
    apply andb_true_iff in Hk. destruct Hk as [Hname Hpk].
    split; [exact Hin|]. split; [exact Hname|].
    exists latest. destruct (latest_iexact_spec _ _ _ Hl) as [H1 [H2 H3]].
    repeat split; try assumption.
    unfold ProjectVersion.eqb in Hpk. now apply Z.eqb_eq.
  - (* what is found *)
    intros latest Hnewest.
    unfold latest_for_name_rows.
    rewrite (newest_version_latest_iexact _ _ _ Hnewest).
    set (wanted := fun k : Klass.t =>
           iexact (Klass.name k) (klass kw)
           && ProjectVersion.eqb (Module_.project_version (Klass.module k)) latest).
    assert (Hwanted : forall k, wanted k = true
              <-> iexact (Klass.name k) (klass kw) = true
                  /\ ProjectVersion.pk (Module_.project_version (Klass.module k))
                     = ProjectVersion.pk latest).
    { intros k. unfold wanted, ProjectVersion.eqb.
      rewrite andb_true_iff, Z.eqb_eq. reflexivity. }
    split.
    + intros k Hin Hname Hpk.
      assert (Hk : In k (filter wanted (klasses s)))
        by (apply filter_In; split; [exact Hin|now apply Hwanted]).
      destruct (filter wanted (klasses s)) as [|k' r] eqn:Hrows; [destruct Hk|].
      assert (Hk' : In k' (filter wanted (klasses s))) by (rewrite Hrows; now left).
      apply filter_In in Hk'. destruct Hk' as [Hin' Hw'].
      apply Hwanted in Hw'. destruct Hw' as [Hname' Hpk'].
      simpl. split.
      * exists k'. repeat split; assumption.
      * intros Honly. now rewrite (Honly k' Hin' Hname' Hpk').
    + destruct (filter wanted (klasses s)) as [|k' r] eqn:Hrows; simpl.
      * split; [|reflexivity].
        intros _ k Hin Hname Hpk.
        pose proof (filter_nil_false _ _ _ Hrows Hin) as Hno.
        assert (wanted k = true) by now apply Hwanted.
        congruence.
      * split; [discriminate|].
        intros Hnone. exfalso.
        assert (Hk' : In k' (filter wanted (klasses s))) by (rewrite Hrows; now left).
        apply filter_In in Hk'. destruct Hk' as [Hin' Hw'].
        apply Hwanted in Hw'. destruct Hw' as [Hname' Hpk'].
        exact (Hnone k' Hin' Hname' Hpk').
  - (* no such package *)
    intros Hunknown. unfold latest_for_name_rows.
    now rewrite (unknown_package_latest_iexact _ _ Hunknown).
  - intros e.
    destruct (latest_for_name_rows s (klass kw) (package kw)); simpl;
      [now intros [= <-]|discriminate].
Qed.

Lemma latest_klass_page_single_fuzzy_query_witness :
  newest_version Fixtures.two_versions "DJANGO" Fixtures.v2_0
  /\ fst (LatestKlassDetailView.get_object (Fixtures.kwargs "DJANGO" "" "" "c")
            (request Fixtures.two_versions LatestKlassDetailView.new))
     = Ok Fixtures.c2_0
  /\ fst (LatestKlassDetailView.get_object (Fixtures.kwargs "DJANGO" "" "" "D")
            (request Fixtures.two_versions LatestKlassDetailView.new))
     = Raise Http404.
Proof.
  assert (Hnewest : newest_version Fixtures.two_versions "DJANGO" Fixtures.v2_0).
  { split; [right; left; reflexivity|]. split; [reflexivity|].
    intros v [<-|[<-|[]]] _; [right; reflexivity|left; reflexivity]. }
  split; [exact Hnewest|]. split.
  - destruct (latest_klass_page_single_fuzzy_query Fixtures.two_versions
                (Fixtures.kwargs "DJANGO" "" "" "c"))
      as [_ [_ [_ [Hfound _]]]].
    destruct (Hfound Fixtures.v2_0 Hnewest) as [Hfind _].
    apply (Hfind Fixtures.c2_0).
    + right; left; reflexivity.
    + reflexivity.
    + reflexivity.
    + intros k2 [<-|[<-|[]]] _ Hpk; [discriminate Hpk|reflexivity].
  - destruct (latest_klass_page_single_fuzzy_query Fixtures.two_versions
                (Fixtures.kwargs "DJANGO" "" "" "D"))
      as [_ [_ [_ [Hfound _]]]].
    destruct (Hfound Fixtures.v2_0 Hnewest) as [_ Hmiss].
    apply Hmiss.
    intros k [<-|[<-|[]]] Hname; discriminate Hname.
Defined.

(** C10.  Whenever the Class-by-name-latest page finds a class, the view's
    [push_state_url] is the canonical URL of that class, and the context
    carries it; this holds from any state of the view and also when the
    request spells the class and package names exactly as stored. *)
Theorem latest_klass_hint_always_set
    (s : Store) (kw : Kwargs) (v0 : LatestKlassDetailView.View) (k : Klass.t) :
  fst (LatestKlassDetailView.get_object kw (request s v0)) = Ok k ->
  LatestKlassDetailView.push_state_url
    (self (snd (LatestKlassDetailView.get_object kw (request s v0))))
  = Some (Managers.klass_get_absolute_url k)
  /\ fst (LatestKlassDetailView.get kw (request s v0))
     = Ok {| LatestKlassDetailView.context_object := k;
             LatestKlassDetailView.context_push_state_url :=
               Some (Managers.klass_get_absolute_url k) |}.
Proof.
  rewrite latest_klass_get_run, latest_klass_get_object_run. simpl.
  destruct (latest_for_name_rows s (klass kw) (package kw)) as [|k0 r]; simpl;
    [discriminate|].
  intros [= <-]. split; reflexivity.
Qed.

Lemma latest_klass_hint_always_set_witness :
  exact (Klass.name Fixtures.c2_0) "C" = true
  /\ exact (Project.name (ProjectVersion.project
             (Module_.project_version (Klass.module Fixtures.c2_0)))) "Django" = true
  /\ fst (LatestKlassDetailView.get_object (Fixtures.kwargs "Django" "" "" "C")
            (request Fixtures.two_versions LatestKlassDetailView.new))
     = Ok Fixtures.c2_0
  /\ fst (LatestKlassDetailView.get (Fixtures.kwargs "Django" "" "" "C")
            (request Fixtures.two_versions LatestKlassDetailView.new))
     = Ok {| LatestKlassDetailView.context_object := Fixtures.c2_0;
             LatestKlassDetailView.context_push_state_url :=
               Some (reverse "klass-detail"
                       [("package", "Django"); ("version", "2.0");
                        ("module", "m"); ("klass", "C")]) |}.
Proof.
  split; [reflexivity|]. split; [reflexivity|]. split; [reflexivity|].
  apply (latest_klass_hint_always_set Fixtures.two_versions
           (Fixtures.kwargs "Django" "" "" "C") LatestKlassDetailView.new Fixtures.c2_0).
  reflexivity.
Defined.

(** *** VersionDetailView and HomeView *)

Lemma version_get_with_run
    (get_project_version : Kwargs -> M VersionDetailView.View ProjectVersion.t)
    (kw : Kwargs) (w : World VersionDetailView.View) :
  VersionDetailView.get_with get_project_version kw w =
  match get_project_version kw w with
  | (Ok pv, w') =>
      (Ok (version_context (db w') pv),
       with_self (traced w' [QFilter KlassModel]) (version_view pv))
  | (Raise (DoesNotExist ProjectVersionModel), w') => (Raise Http404, w')
  | (Raise e, w') => (Raise e, w')
  end.
Proof.
  unfold VersionDetailView.get_with, VersionDetailView.get_context_data,
    objects_filter, try_except, bind.
  destruct (get_project_version kw w) as [[pv|[[| |]| | | | | | |]] w']; reflexivity.
Qed.

Lemma classes_of_In (s : Store) (pv : ProjectVersion.t) (k : Klass.t) :
  In k (classes_of s pv)
  <-> In k (klasses s)
      /\ ProjectVersion.pk (Module_.project_version (Klass.module k))
         = ProjectVersion.pk pv.
Proof.
  unfold classes_of, ProjectVersion.eqb. rewrite filter_In, Z.eqb_eq. reflexivity.
Qed.

(** C8, as stated, fails: the Version page for the request "django" / "2.0"
    resolves the version of the package stored as "Django", so the package
    name is not matched with case-sensitive equality. *)
Lemma version_page_lookup_is_not_exact :
  ~ (forall (s : Store) (kw : Kwargs) (c : VersionDetailView.Context),
       fst (VersionDetailView.get kw (request s VersionDetailView.new)) = Ok c ->
       let pv := VersionDetailView.context_projectversion c in
       Project.name (ProjectVersion.project pv) = package kw
       /\ ProjectVersion.version_number pv = version kw).
Proof.
  intros H.
  destruct (H Fixtures.two_versions (Fixtures.kwargs "django" "2.0" "" "")
              (version_context Fixtures.two_versions Fixtures.v2_0) eq_refl)
    as [Hname _].
  discriminate Hname.
Qed.

(** C8, amended.  The Version detail page resolves its Version by package
    name and version number, both compared without case, in one query; the
    home page resolves the latest version of the package "Django".  In both
    cases the context lists exactly the stored classes whose module belongs
    to the resolved Version.  A Version lookup that selects no row, and a
    home page whose package has no version, end in [Http404]. *)
Theorem version_pages_resolution (s : Store) (kw : Kwargs) :
  let page := fst (VersionDetailView.get kw (request s VersionDetailView.new)) in
  let home := fst (HomeView.get kw (request s VersionDetailView.new)) in
  (forall pv,
     filter (VersionDetailView.version_fuzzy kw) (project_versions s) = [pv] ->
     page = Ok {| VersionDetailView.context_object_list := classes_of s pv;
                  VersionDetailView.context_projectversion := pv |})
  /\ (filter (VersionDetailView.version_fuzzy kw) (project_versions s) = []
      <-> page = Raise Http404)
  /\ (forall pv,
        fst (Managers.get_latest "Django" (request s VersionDetailView.new)) = Ok pv ->
        home = Ok {| VersionDetailView.context_object_list := classes_of s pv;
                     VersionDetailView.context_projectversion := pv |})
  /\ (fst (Managers.get_latest "Django" (request s VersionDetailView.new))
        = Raise (DoesNotExist ProjectVersionModel)
      <-> home = Raise Http404)
  /\ (forall pv k,
        In k (classes_of s pv)
        <-> In k (klasses s)
            /\ ProjectVersion.pk (Module_.project_version (Klass.module k))
               = ProjectVersion.pk pv).
Proof.
  intros page home. subst page home.
  unfold VersionDetailView.get, HomeView.get.
  rewrite !version_get_with_run.
  unfold VersionDetailView.get_project_version, HomeView.get_project_version.
  rewrite objects_get_run, get_latest_run. simpl.
  split; [|split; [|split; [|split]]].
  - intros pv H. rewrite H. reflexivity.
  - destruct (filter (VersionDetailView.version_fuzzy kw) (project_versions s))
      as [|pv [|pv' r]]; simpl; split; try discriminate; reflexivity.
  - intros pv.
    destruct (order_by newest_first (versions_of s "Django")) as [|v r]; simpl;
      [discriminate|].
    intros [= <-]. reflexivity.
  - destruct (order_by newest_first (versions_of s "Django")) as [|v r]; simpl;
      split; try discriminate; reflexivity.
  - intros pv k. apply classes_of_In.
Qed.

(** ** Reads only, and the same answer again *)

Lemma klass_get_stable (kw : Kwargs) : stable (KlassDetailView.get kw).
Proof.
  intros [s v q].
  rewrite !klass_get_run, !klass_get_object_run. simpl.
  destruct (filter (KlassDetailView.precise kw) (klasses s)) as [|k [|k' r]] eqn:Hp;
    simpl; rewrite ?Hp; simpl; auto.
  destruct (filter (KlassDetailView.fuzzy kw) (klasses s)) as [|k [|k' r]] eqn:Hf;
    simpl; rewrite ?Hp, ?Hf; simpl; auto.
Qed.

Lemma latest_klass_get_stable (kw : Kwargs) : stable (LatestKlassDetailView.get kw).
Proof.
  intros [s v q].
  rewrite !latest_klass_get_run, !latest_klass_get_object_run. simpl.
  destruct (latest_for_name_rows s (klass kw) (package kw)) as [|k r] eqn:Hr;
    simpl; rewrite ?Hr; simpl; auto.
Qed.

Lemma module_get_stable (kw : Kwargs) : stable (ModuleDetailView.get kw).
Proof.
  intros [s v q].
  rewrite !module_get_run. simpl.
  destruct (filter (ModuleDetailView.version_fuzzy kw) (project_versions s))
    as [|pv [|pv' r]] eqn:Hv; simpl; rewrite ?Hv; simpl; auto.
  destruct (filter (ModuleDetailView.precise kw pv) (modules s))
    as [|m [|m' r]] eqn:Hp; simpl; rewrite ?Hv, ?Hp; simpl; auto.
  destruct (filter (ModuleDetailView.fuzzy kw) (modules s))
    as [|m [|m' r]] eqn:Hf; simpl; rewrite ?Hv, ?Hp, ?Hf; simpl; auto.
Qed.

Lemma version_get_stable (kw : Kwargs) : stable (VersionDetailView.get kw).
Proof.
  intros [s v q]. unfold VersionDetailView.get.
  rewrite !version_get_with_run.
  unfold VersionDetailView.get_project_version.
  rewrite !objects_get_run. simpl.
  destruct (filter (VersionDetailView.version_fuzzy kw) (project_versions s))
    as [|pv [|pv' r]] eqn:Hv; simpl; rewrite ?Hv; simpl; auto.
Qed.

Lemma home_get_stable (kw : Kwargs) : stable (HomeView.get kw).
Proof.
  intros [s v q]. unfold HomeView.get.
  rewrite !version_get_with_run.
  unfold HomeView.get_project_version.
  rewrite !get_latest_run. simpl.
  destruct (order_by newest_first (versions_of s "Django")) as [|pv r] eqn:Hv;
    simpl; rewrite ?Hv; simpl; auto.
Qed.

Lemma sitemap_stable : stable Sitemap.get_context_data.
Proof.
  intros [s v q].
  rewrite !sitemap_run, !get_latest_run. simpl.
  destruct (order_by newest_first (versions_of s "Django")) as [|pv r] eqn:Hv;
    simpl; rewrite ?Hv; simpl; auto.
Qed.

(** C9.  Each page type and the sitemap build leaves every record of the
    store as it was, and a second run with the same inputs gives the output
    of the first: on the view instance the first run used, and on a new
    request against the store the first run left. *)
Theorem resolution_reads_only_and_repeats (kw : Kwargs) :
  stable (KlassDetailView.get kw)
  /\ stable (LatestKlassDetailView.get kw)
  /\ stable (ModuleDetailView.get kw)
  /\ stable (VersionDetailView.get kw)
  /\ stable (HomeView.get kw)
  /\ stable Sitemap.get_context_data.
Proof.
  split; [apply klass_get_stable|].
  split; [apply latest_klass_get_stable|].
  split; [apply module_get_stable|].
  split; [apply version_get_stable|].
  split; [apply home_get_stable|].
  apply sitemap_stable.
Qed.

(** ** The pages on the fixtures *)

Example klass_page_miss :
  fst (KlassDetailView.get (Fixtures.kwargs "Django" "3.0" "m" "C")
         (request Fixtures.two_versions KlassDetailView.new))
  = Raise Http404.
Proof. reflexivity. Qed.

Example klass_page_case_twins :
  KlassDetailView.get_object (Fixtures.kwargs "Django" "2.0" "m" "VIEW")
    (request Fixtures.case_twins KlassDetailView.new)
  = (Raise (MultipleObjectsReturned KlassModel),
     {| db := Fixtures.case_twins;
        self := KlassDetailView.new;
        queries := [QGet KlassModel Exact; QGet KlassModel IExact] |}).
Proof. reflexivity. Qed.

Example module_page_fuzzy_module :
  fst (ModuleDetailView.get (Fixtures.kwargs "django" "2.0" "M" "")
         (request Fixtures.two_versions ModuleDetailView.new))
  = Ok {| ModuleDetailView.context_object := Fixtures.m2_0;
          ModuleDetailView.context_project_version := Fixtures.v2_0;
          ModuleDetailView.context_klass_list := [Fixtures.c2_0];
          ModuleDetailView.context_push_state_url :=
            Some (reverse "module-detail"
                    [("package", "Django"); ("version", "2.0"); ("module", "m")]) |}.
Proof. reflexivity. Qed.

Example module_page_unknown_version :
  ModuleDetailView.get (Fixtures.kwargs "Django" "3.0" "m" "")
    (request Fixtures.two_versions ModuleDetailView.new)
  = (Raise Http404,
     {| db := Fixtures.two_versions;
        self := ModuleDetailView.new;
        queries := [QGet ProjectVersionModel IExact] |}).
Proof. reflexivity. Qed.

Example latest_klass_page_found :
  LatestKlassDetailView.get_object (Fixtures.kwargs "DJANGO" "" "" "c")
    (request Fixtures.two_versions LatestKlassDetailView.new)
  = (Ok Fixtures.c2_0,
     {| db := Fixtures.two_versions;
        self := latest_klass_hint Fixtures.c2_0;
        queries := [QLatestForName] |}).
Proof. reflexivity. Qed.

Example latest_klass_page_miss :
  fst (LatestKlassDetailView.get_object (Fixtures.kwargs "Django" "" "" "D")
         (request Fixtures.two_versions LatestKlassDetailView.new))
  = Raise Http404.
Proof. reflexivity. Qed.

Example version_page_found :
  fst (VersionDetailView.get (Fixtures.kwargs "DJANGO" "1.0" "" "")
         (request Fixtures.two_versions VersionDetailView.new))
  = Ok {| VersionDetailView.context_object_list := [Fixtures.c1_0];
          VersionDetailView.context_projectversion := Fixtures.v1_0 |}.
Proof. reflexivity. Qed.

Example version_page_miss :
  fst (VersionDetailView.get (Fixtures.kwargs "Django" "3.0" "" "")
         (request Fixtures.two_versions VersionDetailView.new))
  = Raise Http404.
Proof. reflexivity. Qed.

Example home_page_latest :
  fst (HomeView.get (Fixtures.kwargs "" "" "" "")
         (request Fixtures.two_versions VersionDetailView.new))
  = Ok {| VersionDetailView.context_object_list := [Fixtures.c2_0];
          VersionDetailView.context_projectversion := Fixtures.v2_0 |}.
Proof. reflexivity. Qed.

Example home_page_without_versions :
  fst (HomeView.get (Fixtures.kwargs "" "" "" "")
         (request {| project_versions := []; modules := []; klasses := [] |}
                  VersionDetailView.new))
  = Raise Http404.
Proof. reflexivity. Qed.

(** * Further properties of the views *)

(** ** Lists and dictionaries *)

Lemma filter_only {A : Type} (p : A -> bool) (l : list A) (k : A) :
  NoDup l -> In k l -> p k = true ->
  (forall x, In x l -> p x = true -> x = k) ->
  filter p l = [k].
Proof.
  induction l as [|y l IH]; intros Hnd Hin Hk Huniq; [destruct Hin|].
  inversion Hnd as [|? ? Hy Hnd']; subst. simpl.
  destruct Hin as [->|Hin].
  - rewrite Hk. f_equal. apply filter_all_false.
    intros x Hx. destruct (p x) eqn:Hp; [|reflexivity].
    exfalso. apply Hy.
    rewrite <- (Huniq x (or_intror Hx) Hp). exact Hx.
  - destruct (p y) eqn:Hp.
    + exfalso. apply Hy.
      rewrite (Huniq y (or_introl eq_refl) Hp). exact Hin.
    + apply IH; try assumption.
      intros x Hx. apply Huniq. now right.
Qed.

Lemma exact_refl (a : string) : exact a a = true.
Proof. apply exact_eq. reflexivity. Qed.

Lemma klass_precise_canonical (k : Klass.t) :
  KlassDetailView.precise (klass_canonical_kwargs k) k = true.
Proof.
  unfold KlassDetailView.precise, klass_canonical_kwargs. simpl.
  now rewrite !exact_refl.
Qed.

Lemma klass_precise_eq (kw : Kwargs) (k : Klass.t) :
  KlassDetailView.precise kw k = true <-> klass_canonical_kwargs k = kw.
Proof.
  unfold KlassDetailView.precise, klass_canonical_kwargs.
  rewrite !andb_true_iff, !exact_eq. destruct kw as [p v m c]; simpl.
  split.
  - intros [[[-> ->] ->] ->]. reflexivity.
  - intros [= -> -> -> ->]. auto.
Qed.

Lemma klass_url_kwargs_canonical (k : Klass.t) :
  klass_url_kwargs (Managers.klass_get_absolute_url k)
  = Some (klass_canonical_kwargs k).
Proof. reflexivity. Qed.

(** ** KlassDetailView: when the hint appears, and where it leads *)

(** X1.  On a Class page that resolves, the redirect hint is absent exactly
    when the request spells all four stored fields of the class; a hint
    that is present is the canonical URL of the class and differs from the
    URL that was requested. *)
Theorem klass_hint_iff_not_exact
    (s : Store) (kw : Kwargs) (c : KlassDetailView.Context) :
  fst (KlassDetailView.get kw (request s KlassDetailView.new)) = Ok c ->
  let k := KlassDetailView.context_object c in
  (KlassDetailView.context_push_state_url c = None
   <-> KlassDetailView.precise kw k = true)
  /\ (forall u, KlassDetailView.context_push_state_url c = Some u ->
        u = Managers.klass_get_absolute_url k /\ u <> klass_request_url kw).
Proof.
  rewrite klass_get_run, klass_get_object_run. simpl.
  destruct (filter (KlassDetailView.precise kw) (klasses s)) as [|k1 [|k2 r]] eqn:Hp;
    simpl; try discriminate.
  - destruct (filter (KlassDetailView.fuzzy kw) (klasses s)) as [|k1 [|k2 r]] eqn:Hf;
      simpl; try discriminate.
    intros [= <-]. simpl.
    apply filter_singleton in Hf. destruct Hf as [Hin _].
    pose proof (filter_nil_false _ _ _ Hp Hin) as Hno.
    split.
    + split; [discriminate|]. intros H. congruence.
    + intros u [= <-]. split; [reflexivity|].
      intros Heq.
      assert (Hk : klass_canonical_kwargs k1 = kw).
      { destruct kw as [p v m c0]. unfold klass_request_url in Heq.
        unfold Managers.klass_get_absolute_url, reverse in Heq. simpl in Heq.
        injection Heq as H1 H2 H3 H4.
        unfold klass_canonical_kwargs. congruence. }
      apply klass_precise_eq in Hk. congruence.
  - intros [= <-]. simpl.
    apply filter_singleton in Hp. destruct Hp as [_ Hk].
    split; [tauto|discriminate].
Qed.

Lemma klass_hint_iff_not_exact_witness :
  fst (KlassDetailView.get (Fixtures.kwargs "django" "2.0" "M" "c")
         (request Fixtures.two_versions KlassDetailView.new))
  = Ok {| KlassDetailView.context_object := Fixtures.c2_0;
          KlassDetailView.context_push_state_url :=
            Some (Managers.klass_get_absolute_url Fixtures.c2_0) |}
  /\ Managers.klass_get_absolute_url Fixtures.c2_0
     <> klass_request_url (Fixtures.kwargs "django" "2.0" "M" "c").
Proof.
  split; [reflexivity|].
  apply (klass_hint_iff_not_exact Fixtures.two_versions
           (Fixtures.kwargs "django" "2.0" "M" "c")
           {| KlassDetailView.context_object := Fixtures.c2_0;
              KlassDetailView.context_push_state_url :=
                Some (Managers.klass_get_absolute_url Fixtures.c2_0) |}
           eq_refl).
  reflexivity.
Defined.

(** X2.  In a store where no two classes share an identity, the hint of a
    Class page leads to an exact hit: the request read back from the hinted
    URL resolves to the same class and carries no further hint. *)
Theorem klass_hint_round_trip
    (s : Store) (kw : Kwargs) (c : KlassDetailView.Context) (u : Url) :
  klass_identity_unique s ->
  fst (KlassDetailView.get kw (request s KlassDetailView.new)) = Ok c ->
  KlassDetailView.context_push_state_url c = Some u ->
  exists kw',
    klass_url_kwargs u = Some kw'
    /\ fst (KlassDetailView.get kw' (request s KlassDetailView.new))
       = Ok {| KlassDetailView.context_object := KlassDetailView.context_object c;
               KlassDetailView.context_push_state_url := None |}.
Proof.
  intros [Hnd Huniq].
  rewrite klass_get_run, klass_get_object_run. simpl.
  destruct (filter (KlassDetailView.precise kw) (klasses s)) as [|k1 [|k2 r]] eqn:Hp;
    simpl; try discriminate.
  - destruct (filter (KlassDetailView.fuzzy kw) (klasses s)) as [|k1 [|k2 r]] eqn:Hf;
      simpl; try discriminate.
    intros [= <-]. simpl. intros [= <-].
    apply filter_singleton in Hf. destruct Hf as [Hin _].
    exists (klass_canonical_kwargs k1). split; [reflexivity|].
    rewrite klass_get_run, klass_get_object_run. simpl.
    rewrite (filter_only (KlassDetailView.precise (klass_canonical_kwargs k1))
               (klasses s) k1 Hnd Hin (klass_precise_canonical k1)).
    + reflexivity.
    + intros x Hx Hpx. symmetry. now apply Huniq.
  - intros [= <-]. simpl. discriminate.
Qed.

Lemma two_versions_klass_identity_unique :
  klass_identity_unique Fixtures.two_versions.
Proof.
  split.
  - repeat constructor; simpl; intuition discriminate.
  - intros k1 k2 [<-|[<-|[]]] [<-|[<-|[]]] H;
      try reflexivity; discriminate H.
Defined.

Lemma klass_hint_round_trip_witness :
  exists kw',
    klass_url_kwargs (Managers.klass_get_absolute_url Fixtures.c2_0) = Some kw'
    /\ fst (KlassDetailView.get kw' (request Fixtures.two_versions KlassDetailView.new))
       = Ok {| KlassDetailView.context_object := Fixtures.c2_0;
               KlassDetailView.context_push_state_url := None |}.
Proof.
  apply (klass_hint_round_trip Fixtures.two_versions
           (Fixtures.kwargs "django" "2.0" "M" "c")
           {| KlassDetailView.context_object := Fixtures.c2_0;
              KlassDetailView.context_push_state_url :=
                Some (Managers.klass_get_absolute_url Fixtures.c2_0) |}
           (Managers.klass_get_absolute_url Fixtures.c2_0)
           two_versions_klass_identity_unique eq_refl eq_refl).
Defined.

(** ** ModuleDetailView: what the context holds *)

Lemma filter_singleton_only {A : Type} (p : A -> bool) (l : list A) (x y : A) :
  filter p l = [x] -> In y l -> p y = true -> y = x.
Proof.
  intros H Hin Hp.
  assert (Hy : In y (filter p l)) by (apply filter_In; now split).
  rewrite H in Hy. destruct Hy as [<-|[]]. reflexivity.
Qed.

Lemma module_fuzzy_version (kw : Kwargs) (m : Module_.t) :
  ModuleDetailView.fuzzy kw m = true ->
  ModuleDetailView.version_fuzzy kw (Module_.project_version m) = true.
Proof.
  unfold ModuleDetailView.fuzzy, ModuleDetailView.version_fuzzy.
  rewrite !andb_true_iff. tauto.
Qed.

(** The version a fuzzy Module lookup reaches is the version the page has
    resolved, once foreign keys resolve. *)
Lemma module_fuzzy_same_version
    (s : Store) (kw : Kwargs) (pv : ProjectVersion.t) (m : Module_.t) :
  references_resolve s ->
  filter (ModuleDetailView.version_fuzzy kw) (project_versions s) = [pv] ->
  In m (modules s) -> ModuleDetailView.fuzzy kw m = true ->
  Module_.project_version m = pv.
Proof.
  intros [Href _] Hv Hin Hf.
  apply (filter_singleton_only _ _ _ _ Hv).
  - now apply Href.
  - now apply module_fuzzy_version.
Qed.

Lemma module_klass_list_In (s : Store) (m : Module_.t) (k : Klass.t) :
  In k (filter (fun k => Module_.eqb (Klass.module k) m) (klasses s))
  <-> In k (klasses s) /\ Module_.pk (Klass.module k) = Module_.pk m.
Proof.
  unfold Module_.eqb. rewrite filter_In, Z.eqb_eq. reflexivity.
Qed.

(** X3.  In a store whose foreign keys resolve, the context of a Module
    page that resolves is coherent: the module is a stored module of the
    version shown with it, on the exact and on the case-insensitive path,
    and the class list holds exactly the stored classes of that module. *)
Theorem module_page_context_coherent
    (s : Store) (kw : Kwargs) (c : ModuleDetailView.Context) :
  references_resolve s ->
  fst (ModuleDetailView.get kw (request s ModuleDetailView.new)) = Ok c ->
  let m := ModuleDetailView.context_object c in
  let pv := ModuleDetailView.context_project_version c in
  In m (modules s)
  /\ In pv (project_versions s)
  /\ ProjectVersion.pk (Module_.project_version m) = ProjectVersion.pk pv
  /\ (forall k, In k (ModuleDetailView.context_klass_list c)
                <-> In k (klasses s) /\ Module_.pk (Klass.module k) = Module_.pk m).
Proof.
  intros Href. rewrite module_get_run. simpl.
  destruct (filter (ModuleDetailView.version_fuzzy kw) (project_versions s))
    as [|pv [|pv' r]] eqn:Hv; simpl; try discriminate.
  pose proof (filter_singleton _ _ _ Hv) as [Hpv _].
  destruct (filter (ModuleDetailView.precise kw pv) (modules s))
    as [|m [|m' r]] eqn:Hp; simpl; try discriminate.
  - destruct (filter (ModuleDetailView.fuzzy kw) (modules s))
      as [|m [|m' r]] eqn:Hf; simpl; try discriminate.
    intros [= <-]. simpl.
    apply filter_singleton in Hf. destruct Hf as [Hin Hf].
    rewrite (module_fuzzy_same_version s kw pv m Href Hv Hin Hf).
    split; [exact Hin|]. split; [exact Hpv|]. split; [reflexivity|].
    intros k. apply module_klass_list_In.
  - intros [= <-]. simpl.
    apply filter_singleton in Hp. destruct Hp as [Hin Hp].
    unfold ModuleDetailView.precise in Hp. apply andb_true_iff in Hp.
    destruct Hp as [_ Hpk]. unfold ProjectVersion.eqb in Hpk.
    apply Z.eqb_eq in Hpk.
    split; [exact Hin|]. split; [exact Hpv|]. split; [exact Hpk|].
    intros k. apply module_klass_list_In.
Qed.

Lemma two_versions_references_resolve : references_resolve Fixtures.two_versions.
Proof.
  split.
  - intros m [<-|[<-|[]]]; simpl; auto.
  - intros k [<-|[<-|[]]]; simpl; auto.
Defined.

Lemma module_page_context_coherent_witness :
  let c := module_context Fixtures.two_versions Fixtures.v2_0 Fixtures.m2_0
             (Some (Managers.module_get_absolute_url Fixtures.m2_0)) in
  fst (ModuleDetailView.get (Fixtures.kwargs "DJANGO" "2.0" "M" "")
         (request Fixtures.two_versions ModuleDetailView.new)) = Ok c
  /\ ProjectVersion.pk (Module_.project_version (ModuleDetailView.context_object c))
     = ProjectVersion.pk (ModuleDetailView.context_project_version c).
Proof.
  split; [reflexivity|].
  apply (module_page_context_coherent Fixtures.two_versions
           (Fixtures.kwargs "DJANGO" "2.0" "M" "") _
           two_versions_references_resolve eq_refl).
Defined.

(** X4.  In a store whose foreign keys resolve, a Module page that resolves
    carries no hint exactly when the request spells the stored name of the
    module; a hint that is present is the canonical URL of the module,
    built from its stored package name, version number and module name. *)
Theorem module_hint_iff_name_not_exact
    (s : Store) (kw : Kwargs) (c : ModuleDetailView.Context) :
  references_resolve s ->
  fst (ModuleDetailView.get kw (request s ModuleDetailView.new)) = Ok c ->
  let m := ModuleDetailView.context_object c in
  let v := Module_.project_version m in
  (ModuleDetailView.context_push_state_url c = None <-> Module_.name m = module kw)
  /\ (forall u, ModuleDetailView.context_push_state_url c = Some u ->
        u = reverse "module-detail"
              [("package", Project.name (ProjectVersion.project v));
               ("version", ProjectVersion.version_number v);
               ("module", Module_.name m)]).
Proof.
  intros Href. rewrite module_get_run. simpl.
  destruct (filter (ModuleDetailView.version_fuzzy kw) (project_versions s))
    as [|pv [|pv' r]] eqn:Hv; simpl; try discriminate.
  destruct (filter (ModuleDetailView.precise kw pv) (modules s))
    as [|m [|m' r]] eqn:Hp; simpl; try discriminate.
  - destruct (filter (ModuleDetailView.fuzzy kw) (modules s))
      as [|m [|m' r]] eqn:Hf; simpl; try discriminate.
    intros [= <-]. simpl.
    apply filter_singleton in Hf. destruct Hf as [Hin Hf].
    pose proof (module_fuzzy_same_version s kw pv m Href Hv Hin Hf) as Hsame.
    pose proof (filter_nil_false _ _ _ Hp Hin) as Hno.
    unfold ModuleDetailView.precise, ProjectVersion.eqb in Hno.
    rewrite Hsame, Z.eqb_refl, andb_true_r in Hno.
    split.
    + split; [discriminate|].
      intros Hname. apply exact_eq in Hname. congruence.
    + intros u [= <-]. reflexivity.
  - intros [= <-]. simpl.
    apply filter_singleton in Hp. destruct Hp as [_ Hp].
    unfold ModuleDetailView.precise in Hp. apply andb_true_iff in Hp.
    destruct Hp as [Hname _]. apply exact_eq in Hname.
    split; [tauto|discriminate].
Qed.

Lemma module_hint_iff_name_not_exact_witness :
  let c := module_context Fixtures.two_versions Fixtures.v2_0 Fixtures.m2_0
             (Some (Managers.module_get_absolute_url Fixtures.m2_0)) in
  fst (ModuleDetailView.get (Fixtures.kwargs "DJANGO" "2.0" "M" "")
         (request Fixtures.two_versions ModuleDetailView.new)) = Ok c
  /\ (ModuleDetailView.context_push_state_url c = None
      <-> Module_.name (ModuleDetailView.context_object c) = "M").
Proof.
  split; [reflexivity|].
  apply (module_hint_iff_name_not_exact Fixtures.two_versions
           (Fixtures.kwargs "DJANGO" "2.0" "M" "") _
           two_versions_references_resolve eq_refl).
Defined.

(** X5.  When the case-insensitive Version lookup selects several rows, the
    Version page and the Module page raise [MultipleObjectsReturned], also
    for a request that spells one of the rows exactly; the Module page
    stops there, after that one query, with its view untouched. *)
Theorem ambiguous_version_is_an_error
    (s : Store) (kw : Kwargs) (a b : ProjectVersion.t) (r : list ProjectVersion.t) :
  filter (VersionDetailView.version_fuzzy kw) (project_versions s) = a :: b :: r ->
  fst (VersionDetailView.get kw (request s VersionDetailView.new))
  = Raise (MultipleObjectsReturned ProjectVersionModel)
  /\ ModuleDetailView.get kw (request s ModuleDetailView.new)
     = (Raise (MultipleObjectsReturned ProjectVersionModel),
        {| db := s; self := ModuleDetailView.new;
           queries := [QGet ProjectVersionModel IExact] |}).
Proof.
  intros H. split.
  - unfold VersionDetailView.get. rewrite version_get_with_run.
    unfold VersionDetailView.get_project_version.
    rewrite objects_get_run. simpl. rewrite H. reflexivity.
  - rewrite module_get_run. simpl.
    change (ModuleDetailView.version_fuzzy kw) with (VersionDetailView.version_fuzzy kw).
    rewrite H. reflexivity.
Qed.

Lemma ambiguous_version_is_an_error_witness :
  filter (fun v => exact (ProjectVersion.version_number v) "2.0"
                   && exact (Project.name (ProjectVersion.project v)) "Django")
         (project_versions Twins.package_twins) = [Fixtures.v2_0]
  /\ fst (VersionDetailView.get (Fixtures.kwargs "Django" "2.0" "m" "")
            (request Twins.package_twins VersionDetailView.new))
     = Raise (MultipleObjectsReturned ProjectVersionModel).
Proof.
  split; [reflexivity|].
  apply (ambiguous_version_is_an_error Twins.package_twins
           (Fixtures.kwargs "Django" "2.0" "m" "")
           Fixtures.v2_0 Twins.v2_0_lower []).
  reflexivity.
Defined.

(** X6.  A class page and the module page of the same request agree: in a
    store whose foreign keys resolve and whose modules are unique by
    version and name, when the four-field request resolves a class exactly
    and the Version lookup of the Module page selects one row, the Module
    page resolves the module of that class, under the version of that
    class, without a hint, and lists the class. *)
Theorem klass_page_module_page_agree
    (s : Store) (kw : Kwargs) (k : Klass.t) (pv : ProjectVersion.t) :
  references_resolve s ->
  module_identity_unique s ->
  filter (KlassDetailView.precise kw) (klasses s) = [k] ->
  filter (ModuleDetailView.version_fuzzy kw) (project_versions s) = [pv] ->
  exists c,
    fst (ModuleDetailView.get kw (request s ModuleDetailView.new)) = Ok c
    /\ ModuleDetailView.context_object c = Klass.module k
    /\ ModuleDetailView.context_project_version c
       = Module_.project_version (Klass.module k)
    /\ ModuleDetailView.context_push_state_url c = None
    /\ In k (ModuleDetailView.context_klass_list c).
Proof.
  intros [Hrv Hrm] [Hnd Huniq] Hk Hv.
  apply filter_singleton in Hk. destruct Hk as [Hin Hk].
  unfold KlassDetailView.precise in Hk. rewrite !andb_true_iff in Hk.
  destruct Hk as [[[_ Hm] Hver] Hpkg].
  set (m := Klass.module k) in *.
  assert (Hmin : In m (modules s)) by now apply Hrm.
  assert (Hvm : Module_.project_version m = pv).
  { apply (filter_singleton_only _ _ _ _ Hv); [now apply Hrv|].
    unfold ModuleDetailView.version_fuzzy.
    now rewrite (exact_iexact _ _ Hver), (exact_iexact _ _ Hpkg). }
  assert (Hpm : ModuleDetailView.precise kw pv m = true).
  { unfold ModuleDetailView.precise, ProjectVersion.eqb.
    now rewrite Hm, Hvm, Z.eqb_refl. }
  assert (Hp : filter (ModuleDetailView.precise kw pv) (modules s) = [m]).
  { apply filter_only; try assumption.
    intros x Hx Hpx. symmetry.
    unfold ModuleDetailView.precise, ProjectVersion.eqb in Hpx.
    apply andb_true_iff in Hpx. destruct Hpx as [Hname Hpk].
    apply exact_eq in Hname. apply exact_eq in Hm. apply Z.eqb_eq in Hpk.
    apply Huniq; try assumption; congruence. }
  exists (module_context s pv m None).
  rewrite module_get_run. simpl. rewrite Hv, Hp. simpl.
  split; [reflexivity|]. split; [reflexivity|]. split; [now symmetry|].
  split; [reflexivity|].
  apply module_klass_list_In. split; [exact Hin|reflexivity].
Qed.

Lemma two_versions_module_identity_unique :
  module_identity_unique Fixtures.two_versions.
Proof.
  split.
  - repeat constructor; simpl; intuition discriminate.
  - intros m1 m2 [<-|[<-|[]]] [<-|[<-|[]]] Hpk Hname;
      try reflexivity; discriminate Hpk.
Defined.

Lemma klass_page_module_page_agree_witness :
  exists c,
    fst (ModuleDetailView.get (Fixtures.kwargs "Django" "1.0" "m" "C")
           (request Fixtures.two_versions ModuleDetailView.new)) = Ok c
    /\ ModuleDetailView.context_object c = Klass.module Fixtures.c1_0
    /\ ModuleDetailView.context_project_version c
       = Module_.project_version (Klass.module Fixtures.c1_0)
    /\ ModuleDetailView.context_push_state_url c = None
    /\ In Fixtures.c1_0 (ModuleDetailView.context_klass_list c).
Proof.
  apply (klass_page_module_page_agree Fixtures.two_versions
           (Fixtures.kwargs "Django" "1.0" "m" "C") Fixtures.c1_0 Fixtures.v1_0
           two_versions_references_resolve two_versions_module_identity_unique
           eq_refl eq_refl).
Defined.

(** ** HomeView, Sitemap and RedirectToLatestVersionView: the latest version *)

(** X7.  The home page and the sitemap agree on the latest version: when
    the home page resolves, the sitemap resolves too, and among the stored
    classes it gives priority 0.9 to exactly those the home page lists. *)
Theorem home_page_lists_the_priority_classes
    (s : Store) (kw : Kwargs) (c : VersionDetailView.Context) :
  fst (HomeView.get kw (request s VersionDetailView.new)) = Ok c ->
  let latest := VersionDetailView.context_projectversion c in
  exists ks : list Klass.t,
    fst (Sitemap.get_context_data (request s tt))
    = Ok {| Sitemap.urlset :=
              Sitemap.home_entry :: map (Sitemap.klass_entry latest) ks |}
    /\ Permutation ks (klasses s)
    /\ forall k, In k (klasses s) ->
         (Sitemap.priority (Sitemap.klass_entry latest k) = (9 # 10)%Q
          <-> In k (VersionDetailView.context_object_list c)).
Proof.
  unfold HomeView.get. rewrite version_get_with_run.
  unfold HomeView.get_project_version. rewrite get_latest_run.
  rewrite sitemap_run, get_latest_run. simpl.
  destruct (order_by newest_first (versions_of s "Django")) as [|pv r]; simpl;
    [discriminate|].
  intros [= <-]. simpl.
  exists (order_by sitemap_leb (klasses s)).
  split; [reflexivity|]. split; [apply order_by_perm|].
  intros k Hin. unfold Sitemap.klass_priority, classes_of.
  rewrite filter_In.
  destruct (ProjectVersion.eqb (Module_.project_version (Klass.module k)) pv).
  - tauto.
  - split; [discriminate|]. intros [_ H]. discriminate H.
Qed.

Lemma home_page_lists_the_priority_classes_witness :
  fst (HomeView.get (Fixtures.kwargs "" "" "" "")
         (request Fixtures.two_versions VersionDetailView.new))
  = Ok (version_context Fixtures.two_versions Fixtures.v2_0)
  /\ exists ks : list Klass.t,
       fst (Sitemap.get_context_data (request Fixtures.two_versions tt))
       = Ok {| Sitemap.urlset :=
                 Sitemap.home_entry :: map (Sitemap.klass_entry Fixtures.v2_0) ks |}
       /\ Permutation ks (klasses Fixtures.two_versions)
       /\ forall k, In k (klasses Fixtures.two_versions) ->
            (Sitemap.priority (Sitemap.klass_entry Fixtures.v2_0 k) = (9 # 10)%Q
             <-> In k [Fixtures.c2_0]).
Proof.
  split; [reflexivity|].
  apply (home_page_lists_the_priority_classes Fixtures.two_versions
           (Fixtures.kwargs "" "" "" "")
           (version_context Fixtures.two_versions Fixtures.v2_0) eq_refl).
Defined.

(** X8.  When no version of "Django" is stored, the home page answers
    [Http404], while the sitemap lets the manager's [DoesNotExist] through
    unchanged; both stop after the one query for the latest version, so
    the sitemap does not list the classes of other packages either. *)
Theorem missing_reference_version (s : Store) (kw : Kwargs) :
  versions_of s "Django" = [] ->
  HomeView.get kw (request s VersionDetailView.new)
  = (Raise Http404,
     {| db := s; self := VersionDetailView.new; queries := [QLatest] |})
  /\ Sitemap.get_context_data (request s tt)
     = (Raise (DoesNotExist ProjectVersionModel),
        {| db := s; self := tt; queries := [QLatest] |}).
Proof.
  intros H. unfold HomeView.get. rewrite version_get_with_run.
  unfold HomeView.get_project_version.
  rewrite sitemap_run, !get_latest_run. simpl. rewrite H. simpl.
  split; reflexivity.
Qed.

Lemma missing_reference_version_witness :
  versions_of Twins.lower_only "Django" = []
  /\ fst (HomeView.get (Fixtures.kwargs "" "" "" "")
            (request Twins.lower_only VersionDetailView.new)) = Raise Http404
  /\ fst (Sitemap.get_context_data (request Twins.lower_only tt))
     = Raise (DoesNotExist ProjectVersionModel).
Proof.
  split; [reflexivity|].
  destruct (missing_reference_version Twins.lower_only (Fixtures.kwargs "" "" "" "")
              eq_refl) as [H1 H2].
  rewrite H1, H2. split; reflexivity.
Defined.

(** *** Dictionaries *)

Lemma dict_get_absent (d : Dict) (key : string) :
  ~ In key (map fst d) -> dict_get d key = None.
Proof.
  induction d as [|[k v] r IH]; simpl; intros H; [reflexivity|].
  destruct (String.eqb_spec k key) as [->|Hne].
  - exfalso. apply H. now left.
  - apply IH. intros Hin. apply H. now right.
Qed.

Lemma dict_get_set_same (d : Dict) (key value : string) :
  dict_get (dict_set d key value) key = Some value.
Proof.
  induction d as [|[k v] r IH]; simpl.
  - now rewrite String.eqb_refl.
  - destruct (String.eqb_spec k key) as [->|Hne]; simpl.
    + now rewrite String.eqb_refl.
    + destruct (String.eqb_spec k key); [contradiction|exact IH].
Qed.

Lemma dict_get_set_other (d : Dict) (key value other : string) :
  other <> key -> dict_get (dict_set d key value) other = dict_get d other.
Proof.
  intros Hne. induction d as [|[k v] r IH]; simpl.
  - destruct (String.eqb_spec key other); [congruence|reflexivity].
  - destruct (String.eqb_spec k key) as [->|Hk]; simpl.
    + destruct (String.eqb_spec key other); [congruence|reflexivity].
    + destruct (String.eqb_spec k other); [reflexivity|exact IH].
Qed.

Lemma dict_set_keys (d : Dict) (key value : string) (k : string) :
  In k (map fst (dict_set d key value)) <-> k = key \/ In k (map fst d).
Proof.
  induction d as [|[k0 v0] r IH]; simpl.
  - split; [intros [<-|[]]; now left|intros [->|[]]; now left].
  - destruct (String.eqb_spec k0 key) as [->|Hk]; simpl.
    + intuition congruence.
    + rewrite IH. tauto.
Qed.

Lemma dict_set_NoDup (d : Dict) (key value : string) :
  NoDup (map fst d) -> NoDup (map fst (dict_set d key value)).
Proof.
  induction d as [|[k0 v0] r IH]; simpl; intros H.
  - constructor; [intros []|constructor].
  - inversion H as [|? ? Hk0 Hr]; subst.
    destruct (String.eqb_spec k0 key) as [->|Hk]; simpl.
    + now constructor.
    + constructor; [|now apply IH].
      rewrite dict_set_keys. intros [->|Hin]; [now apply Hk|now apply Hk0].
Qed.

(** [{**d, **extra}] reads a key from [extra] first, from [d] otherwise. *)
Lemma dict_get_update (d extra : Dict) (key : string) :
  NoDup (map fst extra) ->
  dict_get (dict_update d extra) key
  = match dict_get extra key with
    | Some v => Some v
    | None => dict_get d key
    end.
Proof.
  unfold dict_update. revert d.
  induction extra as [|[k v] r IH]; intros d Hnd; simpl; [reflexivity|].
  inversion Hnd as [|? ? Hk Hr]; subst.
  rewrite (IH _ Hr).
  destruct (String.eqb_spec k key) as [->|Hne].
  - rewrite (dict_get_absent r key Hk). apply dict_get_set_same.
  - destruct (dict_get r key); [reflexivity|].
    apply dict_get_set_other. congruence.
Qed.

(** X9.  The redirect to the latest version: when the manager returns a
    version, [reverse] is called with the given route name and with keyword
    arguments that hold the package as requested, the version number of
    that latest version (in place of any version passed in) and every other
    keyword argument as it came.  When [reverse] raises, the exception
    passes through and [self.url] is left as it was; when it answers, the
    URL is stored in [self.url] and the outcome is that of the base
    class's method, called with the keyword arguments that carry the new
    version and no package. *)
Theorem redirect_url_names_latest_version
    {A : Type} (reverse : string -> Dict -> Result Url)
    (super_get_redirect_url : Dict -> M RedirectToLatestVersionView.View A)
    (s : Store) (package route : string) (kwargs : Dict)
    (v0 : RedirectToLatestVersionView.View) (latest : ProjectVersion.t) :
  NoDup (map fst kwargs) ->
  dict_get kwargs "package" = None ->
  fst (Managers.get_latest package (request s v0)) = Ok latest ->
  let passed_on := dict_set kwargs "version" (ProjectVersion.version_number latest) in
  exists reversed : Dict,
    dict_get reversed "package" = Some package
    /\ dict_get reversed "version" = Some (ProjectVersion.version_number latest)
    /\ (forall key, key <> "package" -> key <> "version" ->
          dict_get reversed key = dict_get kwargs key)
    /\ dict_get passed_on "package" = None
    /\ dict_get passed_on "version" = Some (ProjectVersion.version_number latest)
    /\ RedirectToLatestVersionView.get_redirect_url reverse super_get_redirect_url
         package route kwargs (request s v0)
       = match reverse route reversed with
         | Ok u =>
             super_get_redirect_url passed_on
               {| db := s;
                  self := {| RedirectToLatestVersionView.url := Some u |};
                  queries := [QLatest] |}
         | Raise e => (Raise e, {| db := s; self := v0; queries := [QLatest] |})
         end.
Proof.
  intros Hnd Hpkg Hlatest passed_on.
  pose proof (dict_set_NoDup kwargs "version"
                (ProjectVersion.version_number latest) Hnd) as Hnd'.
  exists (dict_update [("package", package)] passed_on).
  split; [|split; [|split; [|split; [|split]]]].
  - rewrite (dict_get_update _ _ _ Hnd'). unfold passed_on.
    rewrite dict_get_set_other by discriminate. rewrite Hpkg. reflexivity.
  - rewrite (dict_get_update _ _ _ Hnd'). unfold passed_on.
    now rewrite dict_get_set_same.
  - intros key Hp Hv. rewrite (dict_get_update _ _ _ Hnd'). unfold passed_on.
    rewrite (dict_get_set_other _ _ _ _ Hv).
    destruct (dict_get kwargs key); [reflexivity|].
    change (dict_get [("package", package)] key)
      with (if String.eqb "package" key then Some package else None).
    destruct (String.eqb_spec "package" key); [congruence|reflexivity].
  - unfold passed_on. rewrite dict_get_set_other by discriminate. exact Hpkg.
  - unfold passed_on. apply dict_get_set_same.
  - unfold RedirectToLatestVersionView.get_redirect_url, bind, lift.
    rewrite get_latest_run in *. simpl in *.
    destruct (order_by newest_first (versions_of s package)) as [|v r]; simpl in *;
      [discriminate|].
    injection Hlatest as ->. fold passed_on.
    destruct (reverse route (dict_update [("package", package)] passed_on));
      reflexivity.
Qed.

Lemma redirect_url_names_latest_version_witness :
  let kwargs := [("version", "1.0"); ("module", "m"); ("klass", "C")] in
  let base (kw : Dict) : M RedirectToLatestVersionView.View (option Url * Dict) :=
    v <- read_self ;; ret (RedirectToLatestVersionView.url v, kw) in
  (exists u,
     fst (RedirectToLatestVersionView.get_redirect_url
            (fun name kw => Ok (reverse name kw)) base
            "Django" "klass-detail" kwargs
            (request Fixtures.two_versions RedirectToLatestVersionView.new))
     = Ok (Some u, [("version", "2.0"); ("module", "m"); ("klass", "C")])
     /\ dict_get (url_kwargs u) "package" = Some "Django"
     /\ dict_get (url_kwargs u) "version" = Some "2.0"
     /\ dict_get (url_kwargs u) "klass" = Some "C")
  /\ RedirectToLatestVersionView.get_redirect_url
       (fun _ _ => Raise NoReverseMatch) base
       "Django" "no-such-route" kwargs
       (request Fixtures.two_versions RedirectToLatestVersionView.new)
     = (Raise NoReverseMatch,
        {| db := Fixtures.two_versions;
           self := RedirectToLatestVersionView.new;
           queries := [QLatest] |})
  /\ fst (RedirectToLatestVersionView.get_redirect_url
            (fun name kw => Ok (reverse name kw)) (fun _ => raise ValueError)
            "Django" "klass-detail" kwargs
            (request Fixtures.two_versions RedirectToLatestVersionView.new))
     = Raise (A := unit) ValueError.
Proof.
  intros kwargs base.
  assert (Hnd : NoDup (map fst kwargs))
    by (repeat constructor; simpl; intuition discriminate).
  split; [|split].
  - destruct (redirect_url_names_latest_version
                (fun name kw => Ok (reverse name kw)) base
                Fixtures.two_versions "Django" "klass-detail" kwargs
                RedirectToLatestVersionView.new Fixtures.v2_0
                Hnd eq_refl eq_refl)
      as [d [Hp [Hv [Hrest [_ [_ Hrun]]]]]].
    exists (reverse "klass-detail" d). rewrite Hrun. simpl.
    split; [reflexivity|]. split; [exact Hp|]. split; [exact Hv|].
    rewrite Hrest by discriminate. reflexivity.
  - destruct (redirect_url_names_latest_version
                (fun _ _ => Raise NoReverseMatch) base
                Fixtures.two_versions "Django" "no-such-route" kwargs
                RedirectToLatestVersionView.new Fixtures.v2_0
                Hnd eq_refl eq_refl)
      as [d [_ [_ [_ [_ [_ Hrun]]]]]].
    rewrite Hrun. reflexivity.
  - destruct (redirect_url_names_latest_version
                (fun name kw => Ok (reverse name kw))
                (fun _ => raise (A := unit) ValueError)
                Fixtures.two_versions "Django" "klass-detail" kwargs
                RedirectToLatestVersionView.new Fixtures.v2_0
                Hnd eq_refl eq_refl)
      as [d [_ [_ [_ [_ [_ Hrun]]]]]].
    rewrite Hrun. reflexivity.
Defined.

(** X10.  The redirect to the latest version of a package without a stored
    version raises the manager's [DoesNotExist] and not [Http404]; the URL
    of the view is left as it was, nothing but the one query happens, and
    neither [reverse] nor the base class's method is reached. *)
Theorem redirect_without_versions
    {A : Type} (reverse : string -> Dict -> Result Url)
    (super_get_redirect_url : Dict -> M RedirectToLatestVersionView.View A)
    (s : Store) (package route : string) (kwargs : Dict)
    (v0 : RedirectToLatestVersionView.View) :
  versions_of s package = [] ->
  RedirectToLatestVersionView.get_redirect_url reverse super_get_redirect_url
    package route kwargs (request s v0)
  = (Raise (DoesNotExist ProjectVersionModel),
     {| db := s; self := v0; queries := [QLatest] |}).
Proof.
  intros H. unfold RedirectToLatestVersionView.get_redirect_url, bind.
  rewrite get_latest_run. simpl. rewrite H. reflexivity.
Qed.

Lemma redirect_without_versions_witness :
  versions_of Fixtures.two_versions "django" = []
  /\ fst (RedirectToLatestVersionView.get_redirect_url
            (fun name kw => Ok (reverse name kw))
            (fun kw => ret kw)
            "django" "version-detail" []
            (request Fixtures.two_versions RedirectToLatestVersionView.new))
     = Raise (DoesNotExist ProjectVersionModel).
Proof.
  split; [reflexivity|].
  rewrite (redirect_without_versions
             (fun name kw => Ok (reverse name kw)) (fun kw => ret kw)
             Fixtures.two_versions "django" "version-detail"
             [] RedirectToLatestVersionView.new eq_refl).
  reflexivity.
Defined.

(** ** Round trips to the database *)

(** X11.  The queries of the pages whose lookups are all written in the
    views: a Class page issues one query when its exact lookup selects a
    row and two otherwise; a Version page at most two; a Module page at
    most six, namely three when the exact Module lookup selects the module
    and six when only the case-insensitive one does, because that lookup
    does not select the related rows and the canonical URL then loads the
    version and the package of the module one by one. *)
Theorem round_trips_are_bounded (s : Store) (kw : Kwargs) :
  let module_page := ModuleDetailView.get kw (request s ModuleDetailView.new) in
  (round_trips (KlassDetailView.get kw (request s KlassDetailView.new))
   = match filter (KlassDetailView.precise kw) (klasses s) with
     | [] => 2
     | _ :: _ => 1
     end)%nat
  /\ (round_trips (VersionDetailView.get kw (request s VersionDetailView.new)) <= 2)%nat
  /\ (round_trips module_page <= 6)%nat
  /\ (forall pv m,
        filter (ModuleDetailView.version_fuzzy kw) (project_versions s) = [pv] ->
        filter (ModuleDetailView.precise kw pv) (modules s) = [m] ->
        queries (snd module_page)
        = [QGet ProjectVersionModel IExact; QGet ModuleModel Exact;
           QFilter KlassModel])
  /\ (forall pv m,
        filter (ModuleDetailView.version_fuzzy kw) (project_versions s) = [pv] ->
        filter (ModuleDetailView.precise kw pv) (modules s) = [] ->
        filter (ModuleDetailView.fuzzy kw) (modules s) = [m] ->
        queries (snd module_page)
        = [QGet ProjectVersionModel IExact; QGet ModuleModel Exact;
           QGet ModuleModel IExact; QRelated ModuleModel;
           QRelated ProjectVersionModel; QFilter KlassModel]).
Proof.
  intros module_page. subst module_page.
  unfold round_trips, VersionDetailView.get.
  rewrite klass_get_run, klass_get_object_run, module_get_run, version_get_with_run.
  unfold VersionDetailView.get_project_version.
  rewrite objects_get_run. simpl.
  split; [|split; [|split; [|split]]].
  - destruct (filter (KlassDetailView.precise kw) (klasses s)) as [|k [|k' r]];
      simpl; try reflexivity.
    destruct (filter (KlassDetailView.fuzzy kw) (klasses s)) as [|k [|k' r]];
      reflexivity.
  - destruct (filter (VersionDetailView.version_fuzzy kw) (project_versions s))
      as [|pv [|pv' r]]; simpl; lia.
  - destruct (filter (ModuleDetailView.version_fuzzy kw) (project_versions s))
      as [|pv [|pv' r]]; simpl; try lia.
    destruct (filter (ModuleDetailView.precise kw pv) (modules s))
      as [|m [|m' r]]; simpl; try lia.
    destruct (filter (ModuleDetailView.fuzzy kw) (modules s))
      as [|m [|m' r]]; simpl; lia.
  - intros pv m Hv Hp. rewrite Hv, Hp. reflexivity.
  - intros pv m Hv Hp Hf. rewrite Hv, Hp, Hf. reflexivity.
Qed.

Lemma round_trips_are_bounded_witness :
  round_trips (ModuleDetailView.get (Fixtures.kwargs "django" "2.0" "M" "")
                 (request Fixtures.two_versions ModuleDetailView.new)) = 6%nat
  /\ round_trips (ModuleDetailView.get (Fixtures.kwargs "django" "2.0" "m" "")
                    (request Fixtures.two_versions ModuleDetailView.new)) = 3%nat.
Proof.
  split.
  - destruct (round_trips_are_bounded Fixtures.two_versions
                (Fixtures.kwargs "django" "2.0" "M" ""))
      as [_ [_ [_ [_ Hfuzzy]]]].
    unfold round_trips.
    rewrite (Hfuzzy Fixtures.v2_0 Fixtures.m2_0 eq_refl eq_refl eq_refl).
    reflexivity.
  - destruct (round_trips_are_bounded Fixtures.two_versions
                (Fixtures.kwargs "django" "2.0" "m" ""))
      as [_ [_ [_ [Hexact _]]]].
    unfold round_trips.
    rewrite (Hexact Fixtures.v2_0 Fixtures.m2_0 eq_refl eq_refl).
    reflexivity.
Defined.

(** ** The case of a request *)

Lemma iexact_casefold (stored a b : string) :
  casefold a = casefold b -> iexact stored a = iexact stored b.
Proof. unfold iexact. now intros ->. Qed.

(** X12.  The Version page and the Class-by-name page do not see the case
    of a request: two requests whose package, version and class agree up
    to the case of ASCII letters give the same outcome, trace and view
    included. *)
Theorem request_case_is_irrelevant (s : Store) (kw kw' : Kwargs) :
  casefold (package kw) = casefold (package kw') ->
  casefold (version kw) = casefold (version kw') ->
  casefold (klass kw) = casefold (klass kw') ->
  VersionDetailView.get kw (request s VersionDetailView.new)
  = VersionDetailView.get kw' (request s VersionDetailView.new)
  /\ LatestKlassDetailView.get kw (request s LatestKlassDetailView.new)
     = LatestKlassDetailView.get kw' (request s LatestKlassDetailView.new).
Proof.
  intros Hp Hv Hk. split.
  - unfold VersionDetailView.get. rewrite !version_get_with_run.
    unfold VersionDetailView.get_project_version. rewrite !objects_get_run.
    simpl.
    rewrite (filter_ext (VersionDetailView.version_fuzzy kw)
                        (VersionDetailView.version_fuzzy kw')); [reflexivity|].
    intros v. unfold VersionDetailView.version_fuzzy.
    now rewrite (iexact_casefold _ _ _ Hp), (iexact_casefold _ _ _ Hv).
  - rewrite !latest_klass_get_run, !latest_klass_get_object_run. simpl.
    assert (Hrows : latest_for_name_rows s (klass kw) (package kw)
                    = latest_for_name_rows s (klass kw') (package kw')).
    { unfold latest_for_name_rows, Managers.latest_iexact.
      rewrite (filter_ext
                 (fun v => iexact (Project.name (ProjectVersion.project v)) (package kw))
                 (fun v => iexact (Project.name (ProjectVersion.project v)) (package kw')))
        by (intros v; now apply iexact_casefold).
      destruct (hd_error _) as [latest|]; [|reflexivity].
      apply filter_ext. intros k. now rewrite (iexact_casefold _ _ _ Hk). }
    rewrite Hrows. reflexivity.
Qed.

Lemma request_case_is_irrelevant_witness :
  fst (VersionDetailView.get (Fixtures.kwargs "DJANGO" "1.0" "" "c")
         (request Fixtures.two_versions VersionDetailView.new))
  = fst (VersionDetailView.get (Fixtures.kwargs "django" "1.0" "" "C")
           (request Fixtures.two_versions VersionDetailView.new))
  /\ fst (LatestKlassDetailView.get (Fixtures.kwargs "DJANGO" "1.0" "" "c")
            (request Fixtures.two_versions LatestKlassDetailView.new))
     = Ok {| LatestKlassDetailView.context_object := Fixtures.c2_0;
             LatestKlassDetailView.context_push_state_url :=
               Some (Managers.klass_get_absolute_url Fixtures.c2_0) |}.
Proof.
  destruct (request_case_is_irrelevant Fixtures.two_versions
              (Fixtures.kwargs "DJANGO" "1.0" "" "c")
              (Fixtures.kwargs "django" "1.0" "" "C")
              eq_refl eq_refl eq_refl) as [Hv Hl].
  rewrite Hv, Hl. split; reflexivity.
Defined.

Lemma filter_below_singleton {A : Type} (p q : A -> bool) (l : list A) (k : A) :
  (forall x, p x = true -> q x = true) ->
  filter q l = [k] -> filter p l = [] \/ filter p l = [k].
Proof.
  intros Hpq. induction l as [|x l IH]; simpl; [discriminate|].
  destruct (q x) eqn:Hq.
  - intros [= -> Hrest].
    rewrite (filter_nil_incl p q l Hpq Hrest).
    destruct (p k); auto.
  - destruct (p x) eqn:Hp; [apply Hpq in Hp; congruence|exact IH].
Qed.

(** X13.  A class that is alone under its identity up to case is reached by
    every spelling of it: when the case-insensitive lookup of a request
    selects one class, every request that agrees with it up to the case of
    ASCII letters resolves the Class page to that class. *)
Theorem klass_reached_by_every_spelling
    (s : Store) (kw kw' : Kwargs) (k : Klass.t) :
  filter (KlassDetailView.fuzzy kw) (klasses s) = [k] ->
  casefold (package kw) = casefold (package kw') ->
  casefold (version kw) = casefold (version kw') ->
  casefold (module kw) = casefold (module kw') ->
  casefold (klass kw) = casefold (klass kw') ->
  exists hint,
    fst (KlassDetailView.get kw' (request s KlassDetailView.new))
    = Ok {| KlassDetailView.context_object := k;
            KlassDetailView.context_push_state_url := hint |}.
Proof.
  intros Hf Hp Hv Hm Hk.
  assert (Hf' : filter (KlassDetailView.fuzzy kw') (klasses s) = [k]).
  { rewrite <- Hf. apply filter_ext. intros x. unfold KlassDetailView.fuzzy.
    now rewrite (iexact_casefold _ _ _ Hp), (iexact_casefold _ _ _ Hv),
      (iexact_casefold _ _ _ Hm), (iexact_casefold _ _ _ Hk). }
  rewrite klass_get_run, klass_get_object_run. simpl.
  destruct (filter_below_singleton (KlassDetailView.precise kw')
              (KlassDetailView.fuzzy kw') (klasses s) k
              (klass_precise_fuzzy kw') Hf') as [H|H]; rewrite H.
  - rewrite Hf'. simpl. eexists. reflexivity.
  - simpl. eexists. reflexivity.
Qed.

Lemma klass_reached_by_every_spelling_witness :
  exists hint,
    fst (KlassDetailView.get (Fixtures.kwargs "DJANGO" "1.0" "M" "c")
           (request Fixtures.two_versions KlassDetailView.new))
    = Ok {| KlassDetailView.context_object := Fixtures.c1_0;
            KlassDetailView.context_push_state_url := hint |}.
Proof.
  apply (klass_reached_by_every_spelling Fixtures.two_versions
           (Fixtures.kwargs "Django" "1.0" "m" "C")
           (Fixtures.kwargs "DJANGO" "1.0" "M" "c") Fixtures.c1_0);
    reflexivity.
Defined.

(** ** The sitemap has no duplicate *)

Lemma klass_url_identity (k1 k2 : Klass.t) :
  Managers.klass_get_absolute_url k1 = Managers.klass_get_absolute_url k2 ->
  KlassDetailView.precise (klass_canonical_kwargs k1) k2 = true.
Proof.
  intros H. apply klass_precise_eq.
  unfold Managers.klass_get_absolute_url, reverse in H.
  injection H as H1 H2 H3 H4.
  unfold klass_canonical_kwargs. congruence.
Qed.

(** X14.  In a store where no two classes share an identity, no URL occurs
    twice in the sitemap: the locations of its entries are pairwise
    distinct, the home entry included. *)
Theorem sitemap_locations_are_distinct (s : Store) (c : Sitemap.Context) :
  klass_identity_unique s ->
  fst (Sitemap.get_context_data (request s tt)) = Ok c ->
  NoDup (map Sitemap.location (Sitemap.urlset c)).
Proof.
  intros [Hnd Huniq]. rewrite sitemap_run, get_latest_run. simpl.
  destruct (order_by newest_first (versions_of s "Django")) as [|latest r]; simpl;
    [discriminate|].
  intros [= <-]. simpl. rewrite map_map. simpl.
  constructor.
  - rewrite in_map_iff. intros [k [Hk _]]. discriminate Hk.
  - apply NoDup_map_NoDup_ForallPairs.
    + intros k1 k2 H1 H2 Hurl.
      apply order_by_In in H1. apply order_by_In in H2.
      apply Huniq; try assumption. now apply klass_url_identity.
    + apply (Permutation_NoDup (Permutation_sym (order_by_perm sitemap_leb (klasses s)))).
      exact Hnd.
Qed.

Lemma sitemap_locations_are_distinct_witness :
  exists c,
    fst (Sitemap.get_context_data (request Fixtures.two_versions tt)) = Ok c
    /\ NoDup (map Sitemap.location (Sitemap.urlset c)).
Proof.
  eexists. split; [reflexivity|].
  apply (sitemap_locations_are_distinct Fixtures.two_versions _
           two_versions_klass_identity_unique eq_refl).
Defined.
